(** * http-debug-proxy: body capture/restore and the diagnostic dumper

    A shallow embedding of [main.go]: [readAndMaybeDecompressBody],
    [dumpHTTPResponse], [dumpHTTPRequest] and the response hook installed by
    [main].  Body streams are mutable objects with an identity, so they live
    in a store; the functions of the program are computations over that
    store, the process log and a record of the calls made on streams. *)

From Stdlib Require Import Strings.String Strings.Ascii Strings.Byte Lists.List.
From stdpp Require Import base option list gmap strings.

Open Scope string_scope.
Open Scope list_scope.

(** ** Data *)

Abbreviation bytes := (list byte).

(** A Go [[]byte]: [None] is the nil slice, [Some []] an empty one. *)
Abbreviation slice := (option (list byte)).

Definition slice_bytes (s : slice) : bytes := default [] s.

(** Go [error] values; [io.EOF] is the one the readers compare against. *)
Inductive error :=
| EOF
| ErrNew (msg : string).

(** A Go pair [(v, err)] of which exactly one side is meaningful. *)
Inductive result (A : Type) :=
| Ok (a : A)
| Err (e : error).
Arguments Ok {A} a.
Arguments Err {A} e.

(** What one call of [Read] hands back: the bytes placed in the buffer and
    the error returned with them. *)
Abbreviation read_result := (list byte * option error)%type.

Abbreviation loc := nat.

(** The stream objects of the program.
    - [ExternReader script closed]: a body supplied from outside (the
      connection); [script] lists what its successive [Read] calls return,
      after which it reports [io.EOF].
    - [BytesReader s i]: [io.NopCloser(bytes.NewReader(s))] with read
      offset [i]. *)
Inductive object :=
| ExternReader (script : list read_result) (closed : bool)
| BytesReader (s : bytes) (i : nat).

(** An [io.ReadCloser] interface value; [None] is the nil interface. *)
Abbreviation ReadCloser := (option nat).

Record Request := mkRequest {
  req_Method : string;
  req_URL : string;
  req_Host : string;
  req_Header : gmap string (list string);
  req_ContentLength : Z;
  req_Body : ReadCloser
}.

Record Response := mkResponse {
  resp_Status : string;
  resp_StatusCode : Z;
  resp_Header : gmap string (list string);
  resp_ContentLength : Z;
  resp_Body : ReadCloser
}.

Definition req_set_Body (req : Request) (b : ReadCloser) : Request :=
  mkRequest (req_Method req) (req_URL req) (req_Host req) (req_Header req)
            (req_ContentLength req) b.

Definition resp_set_Body (resp : Response) (b : ReadCloser) : Response :=
  mkResponse (resp_Status resp) (resp_StatusCode resp) (resp_Header resp)
             (resp_ContentLength resp) b.

(** [Header.Get]: the first value stored under the key, [""] when there is
    none.  The program only asks for ["Content-Encoding"], which is already
    in canonical form. *)
Definition Header_Get (h : gmap string (list string)) (key : string) : string :=
  match h !! key with
  | Some (v :: _) => v
  | _ => ""
  end.

(** ** The process log and the record of stream calls *)

Inductive log_arg :=
| ArgErr (e : error)
| ArgBytes (b : slice).

(** One [log.Printf(format, arg)]. *)
Inductive log_entry :=
| Printf (format : string) (arg : log_arg).

Definition LF : string := String (ascii_of_nat 10) EmptyString.

Definition fmt_response_headers_error : string := "Error dumping response headers: %v".
Definition fmt_response_headers : string := "----- RESPONSE HEADERS-----" +:+ LF +:+ "%s".
Definition fmt_response_body_error : string := "Error reading response body: %v".
Definition fmt_response_body : string := "----- RESPONSE BODY -----" +:+ LF +:+ "%s".
Definition fmt_request_headers_error : string := "Error dumping request headers: %v".
Definition fmt_request_headers : string := "----- REQUEST HEADERS-----" +:+ LF +:+ "%s".
Definition fmt_request_body_error : string := "Error reading request body: %v".
Definition fmt_request_body : string := "----- REQUEST BODY -----" +:+ LF +:+ "%s".

(** Calls made on streams and on the decompressor, in program order. *)
Inductive call :=
| CallReadAll (l : loc)
| CallClose (l : loc)
| CallGzipNewReader (raw : bytes).

Record world := World {
  heap : gmap nat object;
  log : list log_entry;
  calls : list call
}.

(** ** Computations: state passing with panics *)

Inductive outcome (A : Type) :=
| Ret (a : A) (w : world)
| Panic (msg : string) (w : world).
Arguments Ret {A} a w.
Arguments Panic {A} msg w.

Definition M (A : Type) : Type := world → outcome A.

#[global] Instance M_ret : MRet M := λ A a w, Ret a w.

#[global] Instance M_bind : MBind M := λ A B f m w,
  match m w with
  | Ret a w' => f a w'
  | Panic msg w' => Panic msg w'
  end.

Definition panic {A : Type} (msg : string) : M A := λ w, Panic msg w.

Definition nil_dereference : string :=
  "runtime error: invalid memory address or nil pointer dereference".

Definition log_Printf (format : string) (arg : log_arg) : M unit := λ w,
  Ret () (World (heap w) (log w ++ [Printf format arg]) (calls w)).

Definition trace (c : call) : M unit := λ w,
  Ret () (World (heap w) (log w) (calls w ++ [c])).

(** ** Library operations on streams *)

(** [io.ReadAll] over a scripted reader: append what each [Read] returns
    until one returns an error; [io.EOF] ends the read without error. *)
Fixpoint readAll_script (b : bytes) (script : list read_result)
  : bytes * option error * list read_result :=
  match script with
  | [] => (b, None, [])
  | (d, None) :: rest => readAll_script (b ++ d) rest
  | (d, Some EOF) :: rest => (b ++ d, None, rest)
  | (d, Some e) :: rest => (b ++ d, Some e, rest)
  end.

Definition readAll_object (o : object) : bytes * option error * object :=
  match o with
  | ExternReader script closed =>
      let '(b, e, rest) := readAll_script [] script in
      (b, e, ExternReader rest closed)
  | BytesReader s i => (drop i s, None, BytesReader s (i `max` length s))
  end.

(** [io.ReadAll(r)]: always returns a non-nil slice; a nil [r] faults on
    the first [Read]. *)
Definition io_ReadAll (r : ReadCloser) : M (slice * option error) := λ w,
  match r with
  | None => Panic nil_dereference w
  | Some l =>
      match heap w !! l with
      | None => Panic nil_dereference w
      | Some o =>
          let '(b, e, o') := readAll_object o in
          Ret (Some b, e)
              (World (<[l := o']> (heap w)) (log w) (calls w ++ [CallReadAll l]))
      end
  end.

Definition close_object (o : object) : object :=
  match o with
  | ExternReader script _ => ExternReader script true
  | BytesReader s i => BytesReader s i
  end.

(** [r.Close()]. *)
Definition Close (r : ReadCloser) : M unit := λ w,
  match r with
  | None => Panic nil_dereference w
  | Some l =>
      match heap w !! l with
      | None => Panic nil_dereference w
      | Some o =>
          Ret () (World (<[l := close_object o]> (heap w)) (log w)
                        (calls w ++ [CallClose l]))
      end
  end.

(** [io.NopCloser(bytes.NewReader(s))]: a new object, at offset 0. *)
Definition NopCloser_NewReader (s : slice) : M ReadCloser := λ w,
  let l := fresh (dom (heap w)) in
  Ret (Some l)
      (World (<[l := BytesReader (slice_bytes s) 0]> (heap w)) (log w) (calls w)).

(** ** The program *)

(** The four results of [readAndMaybeDecompressBody]. *)
Record capture := mkCapture {
  rawBody : slice;
  decodedBody : slice;
  restore : option (M ReadCloser);
  err : option error
}.

(** [http.RoundTripper]: sending a request gives a response or an error. *)
Abbreviation RoundTripper := (Request → M (option Response * option error)).

(** [loggingTransport] wraps a round tripper. *)
Record loggingTransport := mkLoggingTransport {
  rt : RoundTripper
}.

Section Program.

(** [gzip.NewReader] over the given bytes: it fails on a bad header, or
    gives a reader whose [Read] results are listed. *)
Variable gzip_NewReader : bytes → result (list read_result).

(** [httputil.DumpResponse(resp, false)] and
    [httputil.DumpRequestOut(req, false)].  Called without the body, they
    put the message's own body back before they return and never read
    it. *)
Variable DumpResponse : Response → result bytes.
Variable DumpRequestOut : Request → result bytes.

Definition readAndMaybeDecompressBody (body : ReadCloser) (encoding : string)
  : M capture :=
  '(rawBody, err) ← io_ReadAll body;
  Close body;;
  match err with
  | Some e => mret (mkCapture None None None (Some e))
  | None =>
      decoded ←
        (if String.eqb encoding "gzip" then
           trace (CallGzipNewReader (slice_bytes rawBody));;
           match gzip_NewReader (slice_bytes rawBody) with
           | Err _ => mret rawBody
           | Ok gz =>
               (* io.ReadAll(gz), then gz.Close(), which changes nothing *)
               let '(decoded, err, _) := readAll_script [] gz in
               match err with
               | Some _ => mret rawBody
               | None => mret (Some decoded)
               end
           end
         else mret rawBody);
      let restore := NopCloser_NewReader rawBody in
      mret (mkCapture rawBody decoded (Some restore) None)
  end.

Definition dumpHTTPResponse (resp : Response) : M Response :=
  match DumpResponse resp with
  | Err e => log_Printf fmt_response_headers_error (ArgErr e)
  | Ok headerDump => log_Printf fmt_response_headers (ArgBytes (Some headerDump))
  end;;
  c ← readAndMaybeDecompressBody (resp_Body resp)
        (Header_Get (resp_Header resp) "Content-Encoding");
  match err c with
  | Some e => log_Printf fmt_response_body_error (ArgErr e);; mret resp
  | None =>
      match decodedBody c with
      | Some d => log_Printf fmt_response_body (ArgBytes (Some d))
      | None => mret ()
      end;;
      match restore c with
      | None => panic nil_dereference
      | Some restore => b ← restore; mret (resp_set_Body resp b)
      end
  end.

Definition dumpHTTPRequest (req : Request) : M Request :=
  match DumpRequestOut req with
  | Err e => log_Printf fmt_request_headers_error (ArgErr e)
  | Ok headerDump => log_Printf fmt_request_headers (ArgBytes (Some headerDump))
  end;;
  match req_Body req with
  | None => mret req
  | Some _ =>
      c ← readAndMaybeDecompressBody (req_Body req)
            (Header_Get (req_Header req) "Content-Encoding");
      match err c with
      | Some e => log_Printf fmt_request_body_error (ArgErr e);; mret req
      | None =>
          match decodedBody c with
          | Some d => log_Printf fmt_request_body (ArgBytes (Some d))
          | None => mret ()
          end;;
          match restore c with
          | None => panic nil_dereference
          | Some restore => b ← restore; mret (req_set_Body req b)
          end
      end
  end.

(** [proxy.ModifyResponse] as [main] sets it: dump, then return nil. *)
Definition ModifyResponse (resp : Response) : M (Response * option error) :=
  resp' ← dumpHTTPResponse resp;
  mret (resp', None).

(** The [RoundTrip] method of [loggingTransport]: dump the request, then send it with
    the wrapped round tripper, which sees what the dump did to it. *)
Definition RoundTrip (t : loggingTransport) (req : Request)
  : M (option Response * option error) :=
  req' ← dumpHTTPRequest req;
  rt t req'.

End Program.

(** ** Instances of the library operations, to run the program on data *)

Module Demo.

Definition gzip_ErrHeader : error := ErrNew "gzip: invalid header".
Definition gzip_ErrChecksum : error := ErrNew "gzip: invalid checksum".
Definition io_ErrUnexpectedEOF : error := ErrNew "unexpected EOF".
Definition flate_CorruptInput : error := ErrNew "flate: corrupt input".

(** CRC-32 (IEEE), bit by bit. *)
Definition crc32_byte (c : N) (b : byte) : N :=
  Nat.iter 8
    (λ c, if N.odd c then N.lxor (N.shiftr c 1) 3988292384 else N.shiftr c 1)
    (N.lxor c (Byte.to_N b)).

Definition crc32 (data : bytes) : N :=
  N.lxor (fold_left crc32_byte data 4294967295%N) 4294967295%N.

(** A little-endian number. *)
Definition le_N (bs : bytes) : N :=
  fold_right (λ b acc, (Byte.to_N b + 256 * acc)%N) 0%N bs.

(** The reads of a gzip member whose deflate stream is one final stored
    block: the block's bytes, then the check of the trailer. *)
Definition stored_member (deflate : bytes) : list read_result :=
  match deflate with
  | x01 :: l0 :: l1 :: n0 :: n1 :: rest =>
      let len := le_N [l0; l1] in
      if negb (le_N [n0; n1] =? 65535 - len)%N then [([], Some flate_CorruptInput)]
      else
        let data := take (N.to_nat len) rest in
        let trailer := drop (N.to_nat len) rest in
        if (length data <? N.to_nat len)%nat then [(data, Some io_ErrUnexpectedEOF)]
        else if (length trailer <? 8)%nat then [(data, Some io_ErrUnexpectedEOF)]
        else if negb (le_N (take 4 trailer) =? crc32 data)%N
                || negb (le_N (take 4 (drop 4 trailer)) =? len)%N
             then [(data, Some gzip_ErrChecksum)]
        else if (8 <? length trailer)%nat then [(data, Some gzip_ErrHeader)]
        else [(data, Some EOF)]
  | _ => [([], Some flate_CorruptInput)]
  end.

(** [gzip.NewReader] restricted to members without optional header fields
    that hold one stored block.  The header is checked when the reader is
    opened, the data and the trailer when it is read, as the package
    does. *)
Definition gzip_NewReader (raw : bytes) : result (list read_result) :=
  match raw with
  | [] => Err EOF
  | id1 :: id2 :: cm :: flg :: _ :: _ :: _ :: _ :: _ :: _ :: deflate =>
      match id1, id2, cm, flg with
      | x1f, x8b, x08, x00 => Ok (stored_member deflate)
      | _, _, _, _ => Err gzip_ErrHeader
      end
  | _ => Err io_ErrUnexpectedEOF
  end.

(** The member that stores [data] (at most 65535 bytes). *)
Definition le_bytes (k : nat) (n : N) : bytes :=
  (fix go k n :=
     match k with
     | O => []
     | S k' => default x00 (Byte.of_N (n mod 256)%N) :: go k' (n / 256)%N
     end) k n.

Definition gzip_store (data : bytes) : bytes :=
  let len := N.of_nat (length data) in
  [x1f; x8b; x08; x00; x00; x00; x00; x00; x00; xff]
    ++ [x01] ++ le_bytes 2 len ++ le_bytes 2 (65535 - len)%N ++ data
    ++ le_bytes 4 (crc32 data) ++ le_bytes 4 len.

Definition CRLF : string :=
  String (ascii_of_nat 13) (String (ascii_of_nat 10) EmptyString).

(** Header renderers.  The one for requests refuses a method that is not a
    token (here: one that holds a space), as the transport does; for
    responses there is one that renders and one that fails. *)
Definition validMethod (m : string) : bool :=
  forallb (λ b, negb (Byte.eqb b x20)) (list_byte_of_string m).

Definition DumpRequestOut (req : Request) : result bytes :=
  if validMethod (req_Method req) then
    Ok (list_byte_of_string
          (req_Method req +:+ " " +:+ req_URL req +:+ " HTTP/1.1" +:+ CRLF
           +:+ "Host: " +:+ req_Host req +:+ CRLF +:+ CRLF))
  else Err (ErrNew "net/http: invalid method").

Definition DumpResponse (resp : Response) : result bytes :=
  Ok (list_byte_of_string ("HTTP/1.1 " +:+ resp_Status resp +:+ CRLF +:+ CRLF)).

Definition DumpResponse_failing (resp : Response) : result bytes :=
  Err (ErrNew "http: invalid response").

(** Sample bodies: the text [ok]; the gzip member that stores it; the
    same member with a damaged checksum; a text that is not gzip. *)
Definition ok : bytes := [x6f; x6b].

Definition ok_gz : bytes :=
  [x1f; x8b; x08; x00; x00; x00; x00; x00; x00; xff;
   x01; x02; x00; xfd; xff; x6f; x6b;
   x47; xdd; xdc; x79; x02; x00; x00; x00].

Definition ok_gz_damaged : bytes :=
  [x1f; x8b; x08; x00; x00; x00; x00; x00; x00; xff;
   x01; x02; x00; xfd; xff; x6f; x6b;
   x46; xdd; xdc; x79; x02; x00; x00; x00].

Definition plain_text : bytes := list_byte_of_string "hello, world".

Definition gzip_header : gmap string (list string) :=
  {[ "Content-Encoding" := ["gzip"] ]}.

Definition w0 : world := World ∅ [] [].

(** Messages. *)
Definition health_request : Request :=
  mkRequest "GET" "/health" "localhost:8181" ∅ 0 None.

Definition malformed_request : Request :=
  mkRequest "GET /" "/health" "localhost:8181" ∅ 0 None.

Definition post_request : Request :=
  mkRequest "POST" "/api" "localhost:8181" gzip_header 25 (Some 0).

Definition malformed_post_request : Request :=
  mkRequest "POST /" "/api" "localhost:8181" gzip_header 25 (Some 0).

Definition ok_response : Response :=
  mkResponse "200 OK" 200 ∅ 2 (Some 0).

Definition bodyless_response : Response :=
  mkResponse "204 No Content" 204 ∅ 0 None.

(** A world with one unread body at location 0. *)
Definition with_body (script : list read_result) : world :=
  World {[ 0 := ExternReader script false ]} [] [].

(** Round trippers: an upstream that reads the request body, if there is
    one, and answers [200] with the body [ok]; and one that cannot connect. *)
Definition upstream : RoundTripper := λ req,
  match req_Body req with
  | None => mret ()
  | Some _ => io_ReadAll (req_Body req);; mret ()
  end;;
  b ← NopCloser_NewReader (Some ok);
  mret (Some (mkResponse "200 OK" 200 ∅ 2 b), None).

Definition unreachable : RoundTripper := λ req,
  mret (None, Some (ErrNew "dial tcp: connection refused")).

(** A request that declares two codings, gzip not first. *)
Definition br_gzip_header : gmap string (list string) :=
  {[ "Content-Encoding" := ["br"; "gzip"] ]}.

Definition br_gzip_request : Request :=
  mkRequest "POST" "/api" "localhost:8181" br_gzip_header 25 (Some 0).

Definition plain_post_request : Request :=
  mkRequest "POST" "/api" "localhost:8181" ∅ 0 (Some 0).

Definition gzip_response : Response :=
  mkResponse "200 OK" 200 gzip_header 25 (Some 0).

End Demo.

(** ** Notions used to state the properties *)

(** The world with one more log record. *)
Definition logged (w : world) (entry : log_entry) : world :=
  World (heap w) (log w ++ [entry]) (calls w).

(** The world after [io.ReadAll] and [Close] on the stream at [l], which the
    read left in state [o']. *)
Definition after_read (w : world) (l : loc) (o' : object) : world :=
  World (<[l := close_object o']> (heap w)) (log w)
        (calls w ++ [CallReadAll l; CallClose l]).

(** The decompression of [raw]: [Some d] when the data opens as gzip and
    reads to its end without error, [None] when it is not valid gzip. *)
Definition gunzip (gzip_NewReader : bytes → result (list read_result))
    (raw : bytes) : option bytes :=
  match gzip_NewReader raw with
  | Err _ => None
  | Ok gz =>
      match readAll_script [] gz with
      | (d, None, _) => Some d
      | (_, Some _, _) => None
      end
  end.

(** The decoded output for raw bytes [B] declared as [E], and the world
    after it has been computed. *)
Definition decoded_for (gzip_NewReader : bytes → result (list read_result))
    (E : string) (B : bytes) : bytes :=
  if String.eqb E "gzip" then default B (gunzip gzip_NewReader B) else B.

Definition after_decode (E : string) (B : bytes) (w : world) : world :=
  if String.eqb E "gzip"
  then World (heap w) (log w) (calls w ++ [CallGzipNewReader B])
  else w.

(** The record that the header step of each dump writes. *)
Definition request_header_entry (DumpRequestOut : Request → result bytes)
    (req : Request) : log_entry :=
  match DumpRequestOut req with
  | Err e => Printf fmt_request_headers_error (ArgErr e)
  | Ok headerDump => Printf fmt_request_headers (ArgBytes (Some headerDump))
  end.

Definition response_header_entry (DumpResponse : Response → result bytes)
    (resp : Response) : log_entry :=
  match DumpResponse resp with
  | Err e => Printf fmt_response_headers_error (ArgErr e)
  | Ok headerDump => Printf fmt_response_headers (ArgBytes (Some headerDump))
  end.

(** The stream that [io.NopCloser(bytes.NewReader(B))] makes in [w], and
    the world with it. *)
Definition new_loc (w : world) : loc := fresh (dom (heap w)).

Definition with_new_reader (B : bytes) (w : world) : world :=
  World (<[new_loc w := BytesReader B 0]> (heap w)) (log w) (calls w).

(** A body that is a stream of the store. *)
Definition live (w : world) (r : ReadCloser) : Prop :=
  ∃ l, r = Some l ∧ is_Some (heap w !! l).

(** What a run leaves behind apart from the log: its result, if it
    returned, the store and the calls made. *)
Definition forget_log {A : Type} (o : outcome A)
  : option A * gmap nat object * list call :=
  match o with
  | Ret a w => (Some a, heap w, calls w)
  | Panic _ w => (None, heap w, calls w)
  end.

Definition outcome_log {A : Type} (o : outcome A) : list log_entry :=
  match o with
  | Ret _ w => log w
  | Panic _ w => log w
  end.

(** Clients of a restore factory: [invoke_n n f] calls it [n] times in a
    row, [read_each rs] then reads the given streams to their end, one
    after the other. *)
Fixpoint invoke_n (n : nat) (f : M ReadCloser) : M (list ReadCloser) :=
  match n with
  | O => mret []
  | S n' => r ← f; rs ← invoke_n n' f; mret (r :: rs)
  end.

Fixpoint read_each (rs : list ReadCloser) : M (list (slice * option error)) :=
  match rs with
  | [] => mret []
  | r :: rs' => x ← io_ReadAll r; xs ← read_each rs'; mret (x :: xs)
  end.

(** * Properties *)

Ltac run := unfold mbind, M_bind, mret, M_ret; simpl.

Lemma bind_Ret {A B} (m : M A) (k : A → M B) w a w' :
  m w = Ret a w' → (m ≫= k) w = k a w'.
Proof. intros H. unfold mbind, M_bind. rewrite H. reflexivity. Qed.

Lemma bind_Panic {A B} (m : M A) (k : A → M B) w msg w' :
  m w = Panic msg w' → (m ≫= k) w = Panic msg w'.
Proof. intros H. unfold mbind, M_bind. rewrite H. reflexivity. Qed.

Lemma read_then_close {A} (k : slice → option error → M A) w l o B e o' :
  heap w !! l = Some o →
  readAll_object o = (B, e, o') →
  (io_ReadAll (Some l) ≫= λ '(raw, err), Close (Some l) ≫= λ _, k raw err) w
  = k (Some B) e (after_read w l o').
Proof.
  intros Hl Hr. run. unfold io_ReadAll. rewrite Hl, Hr. simpl.
  rewrite lookup_insert_eq. simpl. rewrite insert_insert_eq, <- app_assoc.
  reflexivity.
Qed.

(** Symbolic run of the capture on a live stream. *)
Lemma capture_run gz E w l o B e o' :
  heap w !! l = Some o →
  readAll_object o = (B, e, o') →
  readAndMaybeDecompressBody gz (Some l) E w =
  match e with
  | Some e => Ret (mkCapture None None None (Some e)) (after_read w l o')
  | None =>
      Ret (mkCapture (Some B) (Some (decoded_for gz E B))
                     (Some (NopCloser_NewReader (Some B))) None)
          (after_decode E B (after_read w l o'))
  end.
Proof.
  intros Hl Hr. unfold readAndMaybeDecompressBody.
  rewrite (read_then_close _ w l o B e o' Hl Hr).
  destruct e as [e|]; [reflexivity|].
  unfold decoded_for, after_decode.
  run. destruct (String.eqb E "gzip"); [|reflexivity].
  unfold trace, gunzip. simpl.
  destruct (gz B) as [sc|e]; [|reflexivity].
  destruct (readAll_script [] sc) as [[d [e|]] rest]; reflexivity.
Qed.

Lemma capture_nil gz E w :
  readAndMaybeDecompressBody gz None E w = Panic nil_dereference w.
Proof. reflexivity. Qed.

(** The sample bodies and what the decompressor makes of them. *)
Example gzip_store_ok : Demo.gzip_store Demo.ok = Demo.ok_gz.
Proof. vm_compute. reflexivity. Qed.

Example gunzip_ok_gz : gunzip Demo.gzip_NewReader Demo.ok_gz = Some Demo.ok.
Proof. vm_compute. reflexivity. Qed.

Example gunzip_ok_gz_damaged :
  Demo.gzip_NewReader Demo.ok_gz_damaged = Ok [(Demo.ok, Some Demo.gzip_ErrChecksum)]
  ∧ gunzip Demo.gzip_NewReader Demo.ok_gz_damaged = None.
Proof. split; vm_compute; reflexivity. Qed.

Example gunzip_plain_text :
  Demo.gzip_NewReader Demo.plain_text = Err Demo.gzip_ErrHeader
  ∧ gunzip Demo.gzip_NewReader Demo.plain_text = None.
Proof. split; vm_compute; reflexivity. Qed.

(** What a returning [io.ReadAll] says about the stream it read. *)
Lemma io_ReadAll_Ret r w B e w' :
  io_ReadAll r w = Ret (Some B, e) w' →
  ∃ l o o', r = Some l ∧ heap w !! l = Some o ∧ readAll_object o = (B, e, o').
Proof.
  unfold io_ReadAll. destruct r as [l|]; [|discriminate].
  destruct (heap w !! l) as [o|] eqn:Hl; [|discriminate].
  destruct (readAll_object o) as [[b e'] o'] eqn:Hr.
  intros H. injection H as -> -> _. eauto 6.
Qed.

(** A stream made by the restore factory is new and reads as the captured
    bytes, whatever the world it is made in. *)
Lemma NopCloser_NewReader_fresh s w :
  ∃ l, NopCloser_NewReader s w
       = Ret (Some l) (World (<[l := BytesReader (slice_bytes s) 0]> (heap w))
                             (log w) (calls w))
       ∧ heap w !! l = None.
Proof.
  exists (fresh (dom (heap w))). split; [reflexivity|].
  apply not_elem_of_dom, is_fresh.
Qed.

Lemma io_ReadAll_BytesReader w l s :
  heap w !! l = Some (BytesReader s 0) →
  io_ReadAll (Some l) w
  = Ret (Some s, None)
        (World (<[l := BytesReader s (length s)]> (heap w)) (log w)
               (calls w ++ [CallReadAll l])).
Proof.
  intros Hl. unfold io_ReadAll. rewrite Hl. reflexivity.
Qed.

Lemma restore_then_read B w2 :
  ∃ r w3 w4, NopCloser_NewReader (Some B) w2 = Ret r w3
             ∧ io_ReadAll r w3 = Ret (Some B, None) w4.
Proof.
  destruct (NopCloser_NewReader_fresh (Some B) w2) as (l & Hn & _).
  eexists _, _, _. split; [exact Hn|].
  apply io_ReadAll_BytesReader. simpl. apply lookup_insert_eq.
Qed.

(** C2. With the declaration ["gzip"] the capture returns no error and
    - when the raw bytes open as gzip and read to the end without error,
      the decoded output is their decompression;
    - when opening the decompression stream fails, the decoded output is
      the raw bytes;
    - when the decompression fails partway through the read, the decoded
      output is the raw bytes. *)
Theorem gzip_decoded_or_raw gz body B w w_ :
  io_ReadAll body w = Ret (Some B, None) w_ →
  ∃ c w1,
    readAndMaybeDecompressBody gz body "gzip" w = Ret c w1
    ∧ err c = None ∧ rawBody c = Some B
    ∧ (∀ sc D rest, gz B = Ok sc → readAll_script [] sc = (D, None, rest) →
         decodedBody c = Some D)
    ∧ (∀ e, gz B = Err e → decodedBody c = Some B)
    ∧ (∀ sc D e rest, gz B = Ok sc → readAll_script [] sc = (D, Some e, rest) →
         decodedBody c = Some B).
Proof.
  intros H. apply io_ReadAll_Ret in H as (l & o & o' & -> & Hl & Hr).
  rewrite (capture_run gz "gzip" w l o B None o' Hl Hr).
  eexists _, _. split; [reflexivity|]. simpl.
  do 2 (split; [reflexivity|]). unfold decoded_for, gunzip. simpl.
  split; [|split].
  - intros sc D rest -> ->. reflexivity.
  - intros e ->. reflexivity.
  - intros sc D e rest -> ->. reflexivity.
Qed.

Lemma gzip_decoded_or_raw_witness :
  (∃ c w1,
     readAndMaybeDecompressBody Demo.gzip_NewReader (Some 0) "gzip"
       (Demo.with_body [(Demo.ok_gz, None)]) = Ret c w1
     ∧ decodedBody c = Some Demo.ok)
  ∧ (∃ c w1,
       readAndMaybeDecompressBody Demo.gzip_NewReader (Some 0) "gzip"
         (Demo.with_body [(Demo.plain_text, None)]) = Ret c w1
       ∧ err c = None ∧ decodedBody c = Some Demo.plain_text)
  ∧ (∃ c w1,
       readAndMaybeDecompressBody Demo.gzip_NewReader (Some 0) "gzip"
         (Demo.with_body [(Demo.ok_gz_damaged, None)]) = Ret c w1
       ∧ err c = None ∧ decodedBody c = Some Demo.ok_gz_damaged).
Proof.
  split; [|split].
  - edestruct (gzip_decoded_or_raw Demo.gzip_NewReader (Some 0) Demo.ok_gz
                 (Demo.with_body [(Demo.ok_gz, None)]))
      as (c & w1 & Hrun & _ & _ & Hvalid & _ & _); [vm_compute; reflexivity|].
    exists c, w1. split; [exact Hrun|].
    eapply Hvalid; vm_compute; reflexivity.
  - edestruct (gzip_decoded_or_raw Demo.gzip_NewReader (Some 0) Demo.plain_text
                 (Demo.with_body [(Demo.plain_text, None)]))
      as (c & w1 & Hrun & Herr & _ & _ & Hopen & _); [vm_compute; reflexivity|].
    exists c, w1. split; [exact Hrun|]. split; [exact Herr|].
    eapply Hopen; vm_compute; reflexivity.
  - edestruct (gzip_decoded_or_raw Demo.gzip_NewReader (Some 0) Demo.ok_gz_damaged
                 (Demo.with_body [(Demo.ok_gz_damaged, None)]))
      as (c & w1 & Hrun & Herr & _ & _ & _ & Hread); [vm_compute; reflexivity|].
    exists c, w1. split; [exact Hrun|]. split; [exact Herr|].
    eapply Hread; vm_compute; reflexivity.
Defined.

(** C3. With any declaration other than ["gzip"], the empty one included,
    the decoded output is the raw bytes and the decompressor is not called:
    the only calls made are the read and the close of the body. *)
Theorem other_encoding_decoded_is_raw gz body E B w w_ :
  io_ReadAll body w = Ret (Some B, None) w_ →
  E ≠ "gzip" →
  ∃ c w1 l,
    readAndMaybeDecompressBody gz body E w = Ret c w1
    ∧ rawBody c = Some B ∧ decodedBody c = Some B ∧ err c = None
    ∧ body = Some l ∧ calls w1 = calls w ++ [CallReadAll l; CallClose l].
Proof.
  intros H HE. apply io_ReadAll_Ret in H as (l & o & o' & -> & Hl & Hr).
  rewrite (capture_run gz E w l o B None o' Hl Hr).
  unfold decoded_for, after_decode.
  apply String.eqb_neq in HE. rewrite HE.
  eexists _, _, l. repeat (split; [reflexivity|]). reflexivity.
Qed.

Lemma other_encoding_decoded_is_raw_witness :
  ∃ c w1 l,
    readAndMaybeDecompressBody Demo.gzip_NewReader (Some 0) ""
      (Demo.with_body [(Demo.ok_gz, None)]) = Ret c w1
    ∧ rawBody c = Some Demo.ok_gz ∧ decodedBody c = Some Demo.ok_gz ∧ err c = None
    ∧ Some 0 = Some l
    ∧ calls w1 = calls (Demo.with_body [(Demo.ok_gz, None)])
                 ++ [CallReadAll l; CallClose l].
Proof.
  eapply (other_encoding_decoded_is_raw Demo.gzip_NewReader (Some 0) "" Demo.ok_gz
            (Demo.with_body [(Demo.ok_gz, None)])).
  - vm_compute. reflexivity.
  - discriminate.
Defined.

(** C4. On a body stream whose full read returns [(B, e)], the capture
    returns the error [e]: it returns an error exactly when that read did.
    With an error the raw bytes, the decoded bytes and the restore factory
    are all nil; without one, whatever gzip decoding does, they are all
    present. *)
Theorem capture_fails_iff_read_fails gz body E B e w w_ :
  io_ReadAll body w = Ret (Some B, e) w_ →
  ∃ c w1,
    readAndMaybeDecompressBody gz body E w = Ret c w1
    ∧ err c = e
    ∧ (is_Some (err c) ↔ is_Some e)
    ∧ (is_Some e → rawBody c = None ∧ decodedBody c = None ∧ restore c = None)
    ∧ (e = None → rawBody c = Some B ∧ is_Some (decodedBody c) ∧ is_Some (restore c)).
Proof.
  intros H. apply io_ReadAll_Ret in H as (l & o & o' & -> & Hl & Hr).
  rewrite (capture_run gz E w l o B e o' Hl Hr).
  destruct e as [e|].
  - eexists _, _. split; [reflexivity|]. simpl.
    repeat split; try done.
  - eexists _, _. split; [reflexivity|]. simpl.
    split; [reflexivity|]. split; [reflexivity|].
    split; [intros [? ?]; discriminate|]. intros _. repeat split; eauto.
Qed.

Lemma capture_fails_iff_read_fails_witness :
  ∃ c w1,
    readAndMaybeDecompressBody Demo.gzip_NewReader (Some 0) "gzip"
      (Demo.with_body [(Demo.ok, None); ([], Some (ErrNew "connection reset"))])
    = Ret c w1
    ∧ err c = Some (ErrNew "connection reset")
    ∧ (is_Some (err c) ↔ is_Some (Some (ErrNew "connection reset")))
    ∧ (is_Some (Some (ErrNew "connection reset")) →
       rawBody c = None ∧ decodedBody c = None ∧ restore c = None)
    ∧ (Some (ErrNew "connection reset") = None →
       rawBody c = Some Demo.ok ∧ is_Some (decodedBody c) ∧ is_Some (restore c)).
Proof.
  eapply (capture_fails_iff_read_fails Demo.gzip_NewReader (Some 0) "gzip" Demo.ok
            (Some (ErrNew "connection reset"))
            (Demo.with_body [(Demo.ok, None); ([], Some (ErrNew "connection reset"))])).
  vm_compute. reflexivity.
Defined.

(** A capture that returns was given a live stream. *)
Lemma capture_Ret_inv gz body E w c w1 :
  readAndMaybeDecompressBody gz body E w = Ret c w1 →
  ∃ l o B e o', body = Some l ∧ heap w !! l = Some o
                ∧ readAll_object o = (B, e, o').
Proof.
  unfold readAndMaybeDecompressBody. run. unfold io_ReadAll.
  destruct body as [l|]; [|discriminate].
  destruct (heap w !! l) as [o|] eqn:Hl; [|discriminate].
  destruct (readAll_object o) as [[B e] o'] eqn:Hr.
  intros _. eauto 10.
Qed.

Lemma capture_ok_restore gz body E w c w1 :
  readAndMaybeDecompressBody gz body E w = Ret c w1 →
  err c = None →
  ∃ B, rawBody c = Some B ∧ restore c = Some (NopCloser_NewReader (Some B)).
Proof.
  intros Hrun Herr.
  destruct (capture_Ret_inv _ _ _ _ _ _ Hrun) as (l & o & B & e & o' & -> & Hl & Hr).
  rewrite (capture_run gz E w l o B e o' Hl Hr) in Hrun.
  destruct e as [e|].
  - injection Hrun as <- _. discriminate.
  - exists B. injection Hrun as <- _. split; reflexivity.
Qed.

Lemma invoke_n_NewReader B n : ∀ w2,
  ∃ ls w3,
    invoke_n n (NopCloser_NewReader (Some B)) w2 = Ret (Some <$> ls) w3
    ∧ length ls = n ∧ NoDup ls
    ∧ (∀ l, l ∈ ls → heap w2 !! l = None ∧ heap w3 !! l = Some (BytesReader B 0))
    ∧ (∀ l o, heap w2 !! l = Some o → heap w3 !! l = Some o).
Proof.
  induction n as [|n IH]; intros w2.
  - exists [], w2. split; [reflexivity|]. split; [reflexivity|].
    split; [constructor|]. split; [|auto].
    intros l Hin. inversion Hin.
  - destruct (NopCloser_NewReader_fresh (Some B) w2) as (l & Hnew & Hfresh).
    destruct (IH (World (<[l := BytesReader (slice_bytes (Some B)) 0]> (heap w2))
                        (log w2) (calls w2)))
      as (ls & w3 & Hrun & Hlen & Hnd & Hls & Hkeep).
    simpl in Hls, Hkeep.
    exists (l :: ls), w3.
    split.
    { cbn [invoke_n]. rewrite (bind_Ret _ _ _ _ _ Hnew).
      rewrite (bind_Ret _ _ _ _ _ Hrun). reflexivity. }
    split; [by rewrite <- Hlen|].
    assert (Hl3 : heap w3 !! l = Some (BytesReader B 0))
      by (apply Hkeep, lookup_insert_eq).
    split; [|split].
    + constructor; [|exact Hnd].
      intros Hin. destruct (Hls l Hin) as [Hnone _].
      rewrite lookup_insert_eq in Hnone. discriminate.
    + intros l' Hin. apply elem_of_cons in Hin as [->|Hin]; [by split|].
      destruct (Hls l' Hin) as [Hnone Hsome]. split; [|exact Hsome].
      apply lookup_insert_None in Hnone as [Hnone _]. exact Hnone.
    + intros l' o Hl'. apply Hkeep.
      rewrite lookup_insert_ne; [exact Hl'|].
      intros <-. rewrite Hfresh in Hl'. discriminate.
Qed.

Lemma read_each_unread B ls :
  NoDup ls →
  ∀ w, (∀ l, l ∈ ls → heap w !! l = Some (BytesReader B 0)) →
  ∃ w', read_each (Some <$> ls) w = Ret (replicate (length ls) (Some B, None)) w'.
Proof.
  induction 1 as [|l ls Hnotin Hnd IH]; intros w Hall.
  - exists w. reflexivity.
  - assert (Hl : heap w !! l = Some (BytesReader B 0)) by (apply Hall; left).
    edestruct IH as (w' & Hrun).
    2: { exists w'. cbn [fmap list_fmap read_each length replicate].
         rewrite (bind_Ret _ _ _ _ _ (io_ReadAll_BytesReader w l B Hl)).
         rewrite (bind_Ret _ _ _ _ _ Hrun). reflexivity. }
    simpl. intros l' Hin. rewrite lookup_insert_ne.
    + apply Hall. by right.
    + intros <-. contradiction.
Qed.

(** C5. The restore factory of a successful capture can be invoked any
    number of times, in any world: every invocation makes a stream that did
    not exist before, positioned at the start of the captured raw bytes, and
    leaves the existing streams as they are; the streams made are pairwise
    distinct, and read one after the other in any order each of them yields
    exactly the raw bytes. *)
Theorem restore_streams_fresh_and_independent gz body E w c w1 :
  readAndMaybeDecompressBody gz body E w = Ret c w1 →
  err c = None →
  ∃ f B,
    restore c = Some f ∧ rawBody c = Some B
    ∧ ∀ n w2, ∃ ls w3,
        invoke_n n f w2 = Ret (Some <$> ls) w3
        ∧ length ls = n ∧ NoDup ls
        ∧ (∀ l, l ∈ ls →
             heap w2 !! l = None ∧ heap w3 !! l = Some (BytesReader B 0))
        ∧ (∀ l o, heap w2 !! l = Some o → heap w3 !! l = Some o)
        ∧ ∀ order, order ≡ₚ ls →
            ∃ w4, read_each (Some <$> order) w3
                  = Ret (replicate n (Some B, None)) w4.
Proof.
  intros Hrun Herr.
  destruct (capture_ok_restore _ _ _ _ _ _ Hrun Herr) as (B & Hraw & Hf).
  exists (NopCloser_NewReader (Some B)), B.
  split; [exact Hf|]. split; [exact Hraw|].
  intros n w2.
  destruct (invoke_n_NewReader B n w2) as (ls & w3 & Hinv & Hlen & Hnd & Hls & Hkeep).
  exists ls, w3. repeat (split; [assumption|]).
  intros order Hperm.
  destruct (read_each_unread B order) with (w := w3) as (w4 & Hread).
  - by rewrite Hperm.
  - intros l Hin. apply Hls. by rewrite <- Hperm.
  - exists w4. rewrite Hread. by rewrite Hperm, Hlen.
Qed.

Lemma restore_streams_fresh_and_independent_witness :
  ∃ c w1,
    readAndMaybeDecompressBody Demo.gzip_NewReader (Some 0) "gzip"
      (Demo.with_body [(Demo.ok_gz, None)]) = Ret c w1
    ∧ err c = None
    ∧ ∃ f B,
        restore c = Some f ∧ rawBody c = Some B
        ∧ ∀ n w2, ∃ ls w3,
            invoke_n n f w2 = Ret (Some <$> ls) w3
            ∧ length ls = n ∧ NoDup ls
            ∧ (∀ l, l ∈ ls →
                 heap w2 !! l = None ∧ heap w3 !! l = Some (BytesReader B 0))
            ∧ (∀ l o, heap w2 !! l = Some o → heap w3 !! l = Some o)
            ∧ ∀ order, order ≡ₚ ls →
                ∃ w4, read_each (Some <$> order) w3
                      = Ret (replicate n (Some B, None)) w4.
Proof.
  eexists _, _. split; [vm_compute; reflexivity|].
  split; [reflexivity|].
  eapply (restore_streams_fresh_and_independent Demo.gzip_NewReader (Some 0) "gzip"
            (Demo.with_body [(Demo.ok_gz, None)])).
  - vm_compute. reflexivity.
  - reflexivity.
Defined.

(** C10. The test on the declaration is equality with ["gzip"], character
    by character: the decompressor is called exactly when the declaration is
    that string, and a declaration that differs from it at any position
    (another case, a longer list of codings, a leading space) leaves the
    decoded output equal to the raw bytes. *)
Theorem gzip_test_is_exact gz body E B w w_ :
  io_ReadAll body w = Ret (Some B, None) w_ →
  ∃ c w1 l,
    readAndMaybeDecompressBody gz body E w = Ret c w1
    ∧ body = Some l
    ∧ calls w1 = calls w ++ [CallReadAll l; CallClose l]
                 ++ (if decide (E = "gzip") then [CallGzipNewReader B] else [])
    ∧ ((∃ i, String.get i E ≠ String.get i "gzip") →
       decodedBody c = Some B ∧ calls w1 = calls w ++ [CallReadAll l; CallClose l]).
Proof.
  intros H. apply io_ReadAll_Ret in H as (l & o & o' & -> & Hl & Hr).
  rewrite (capture_run gz E w l o B None o' Hl Hr).
  unfold decoded_for, after_decode.
  destruct (String.eqb E "gzip") eqn:HE.
  - apply String.eqb_eq in HE as ->.
    eexists _, _, l. split; [reflexivity|]. split; [reflexivity|]. simpl.
    split; [by rewrite <- app_assoc|].
    intros [i Hi]. by destruct Hi.
  - eexists _, _, l. split; [reflexivity|]. split; [reflexivity|]. simpl.
    apply String.eqb_neq in HE. destruct (decide (E = "gzip")); [done|].
    split; [reflexivity|]. intros _. split; reflexivity.
Qed.

Lemma gzip_test_is_exact_witness :
  (∃ c w1,
     readAndMaybeDecompressBody Demo.gzip_NewReader (Some 0) "GZIP"
       (Demo.with_body [(Demo.ok_gz, None)]) = Ret c w1
     ∧ decodedBody c = Some Demo.ok_gz
     ∧ calls w1 = [CallReadAll 0; CallClose 0])
  ∧ (∃ c w1,
       readAndMaybeDecompressBody Demo.gzip_NewReader (Some 0) "gzip, br"
         (Demo.with_body [(Demo.ok_gz, None)]) = Ret c w1
       ∧ decodedBody c = Some Demo.ok_gz
       ∧ calls w1 = [CallReadAll 0; CallClose 0])
  ∧ (∃ c w1,
       readAndMaybeDecompressBody Demo.gzip_NewReader (Some 0) " gzip"
         (Demo.with_body [(Demo.ok_gz, None)]) = Ret c w1
       ∧ decodedBody c = Some Demo.ok_gz
       ∧ calls w1 = [CallReadAll 0; CallClose 0]).
Proof.
  split; [|split].
  - edestruct (gzip_test_is_exact Demo.gzip_NewReader (Some 0) "GZIP" Demo.ok_gz
                 (Demo.with_body [(Demo.ok_gz, None)]))
      as (c & w1 & l & Hrun & Hl & _ & Hdiff); [vm_compute; reflexivity|].
    injection Hl as <-. exists c, w1. split; [exact Hrun|].
    apply Hdiff. exists 0. discriminate.
  - edestruct (gzip_test_is_exact Demo.gzip_NewReader (Some 0) "gzip, br" Demo.ok_gz
                 (Demo.with_body [(Demo.ok_gz, None)]))
      as (c & w1 & l & Hrun & Hl & _ & Hdiff); [vm_compute; reflexivity|].
    injection Hl as <-. exists c, w1. split; [exact Hrun|].
    apply Hdiff. exists 4. discriminate.
  - edestruct (gzip_test_is_exact Demo.gzip_NewReader (Some 0) " gzip" Demo.ok_gz
                 (Demo.with_body [(Demo.ok_gz, None)]))
      as (c & w1 & l & Hrun & Hl & _ & Hdiff); [vm_compute; reflexivity|].
    injection Hl as <-. exists c, w1. split; [exact Hrun|].
    apply Hdiff. exists 0. discriminate.
Defined.

(** ** The dumps, run symbolically *)

Lemma request_header_step d req w :
  match d req with
  | Err e => log_Printf fmt_request_headers_error (ArgErr e)
  | Ok headerDump => log_Printf fmt_request_headers (ArgBytes (Some headerDump))
  end w = Ret () (logged w (request_header_entry d req)).
Proof. unfold request_header_entry. destruct (d req); reflexivity. Qed.

Lemma response_header_step d resp w :
  match d resp with
  | Err e => log_Printf fmt_response_headers_error (ArgErr e)
  | Ok headerDump => log_Printf fmt_response_headers (ArgBytes (Some headerDump))
  end w = Ret () (logged w (response_header_entry d resp)).
Proof. unfold response_header_entry. destruct (d resp); reflexivity. Qed.

Lemma dumpHTTPRequest_nil gz d req w :
  req_Body req = None →
  dumpHTTPRequest gz d req w = Ret req (logged w (request_header_entry d req)).
Proof.
  intros Hb. unfold dumpHTTPRequest.
  rewrite (bind_Ret _ _ _ _ _ (request_header_step d req w)).
  rewrite Hb. reflexivity.
Qed.

Lemma dumpHTTPRequest_run gz d req w l o B e o' :
  req_Body req = Some l →
  heap w !! l = Some o →
  readAll_object o = (B, e, o') →
  dumpHTTPRequest gz d req w =
  let w0 := logged w (request_header_entry d req) in
  match e with
  | Some e =>
      Ret req (logged (after_read w0 l o') (Printf fmt_request_body_error (ArgErr e)))
  | None =>
      let E := Header_Get (req_Header req) "Content-Encoding" in
      let w2 := logged (after_decode E B (after_read w0 l o'))
                       (Printf fmt_request_body (ArgBytes (Some (decoded_for gz E B)))) in
      Ret (req_set_Body req (Some (new_loc w2))) (with_new_reader B w2)
  end.
Proof.
  intros Hb Hl Hr. unfold dumpHTTPRequest.
  rewrite (bind_Ret _ _ _ _ _ (request_header_step d req w)).
  rewrite Hb.
  pose proof (capture_run gz (Header_Get (req_Header req) "Content-Encoding")
                (logged w (request_header_entry d req)) l o B e o' Hl Hr) as Hc.
  destruct e as [e|]; rewrite (bind_Ret _ _ _ _ _ Hc); reflexivity.
Qed.

Lemma dumpHTTPResponse_nil gz d resp w :
  resp_Body resp = None →
  dumpHTTPResponse gz d resp w
  = Panic nil_dereference (logged w (response_header_entry d resp)).
Proof.
  intros Hb. unfold dumpHTTPResponse.
  rewrite (bind_Ret _ _ _ _ _ (response_header_step d resp w)).
  rewrite Hb. reflexivity.
Qed.

Lemma dumpHTTPResponse_run gz d resp w l o B e o' :
  resp_Body resp = Some l →
  heap w !! l = Some o →
  readAll_object o = (B, e, o') →
  dumpHTTPResponse gz d resp w =
  let w0 := logged w (response_header_entry d resp) in
  match e with
  | Some e =>
      Ret resp (logged (after_read w0 l o') (Printf fmt_response_body_error (ArgErr e)))
  | None =>
      let E := Header_Get (resp_Header resp) "Content-Encoding" in
      let w2 := logged (after_decode E B (after_read w0 l o'))
                       (Printf fmt_response_body (ArgBytes (Some (decoded_for gz E B)))) in
      Ret (resp_set_Body resp (Some (new_loc w2))) (with_new_reader B w2)
  end.
Proof.
  intros Hb Hl Hr. unfold dumpHTTPResponse.
  rewrite (bind_Ret _ _ _ _ _ (response_header_step d resp w)).
  rewrite Hb.
  pose proof (capture_run gz (Header_Get (resp_Header resp) "Content-Encoding")
                (logged w (response_header_entry d resp)) l o B e o' Hl Hr) as Hc.
  destruct e as [e|]; rewrite (bind_Ret _ _ _ _ _ Hc); reflexivity.
Qed.

Lemma heap_after_decode E B w : heap (after_decode E B w) = heap w.
Proof. unfold after_decode. destruct (String.eqb E "gzip"); reflexivity. Qed.

Lemma log_after_decode E B w : log (after_decode E B w) = log w.
Proof. unfold after_decode. destruct (String.eqb E "gzip"); reflexivity. Qed.

Lemma calls_after_decode E B w :
  calls (after_decode E B w)
  = calls w ++ (if String.eqb E "gzip" then [CallGzipNewReader B] else []).
Proof.
  unfold after_decode. destruct (String.eqb E "gzip"); simpl; [reflexivity|].
  by rewrite app_nil_r.
Qed.

Lemma dumpHTTPRequest_dangling gz d req w l :
  req_Body req = Some l →
  heap w !! l = None →
  dumpHTTPRequest gz d req w
  = Panic nil_dereference (logged w (request_header_entry d req)).
Proof.
  intros Hb Hl. unfold dumpHTTPRequest.
  rewrite (bind_Ret _ _ _ _ _ (request_header_step d req w)).
  rewrite Hb. apply bind_Panic.
  unfold readAndMaybeDecompressBody. apply bind_Panic.
  unfold io_ReadAll. simpl. rewrite Hl. reflexivity.
Qed.

Lemma dumpHTTPResponse_dangling gz d resp w l :
  resp_Body resp = Some l →
  heap w !! l = None →
  dumpHTTPResponse gz d resp w
  = Panic nil_dereference (logged w (response_header_entry d resp)).
Proof.
  intros Hb Hl. unfold dumpHTTPResponse.
  rewrite (bind_Ret _ _ _ _ _ (response_header_step d resp w)).
  rewrite Hb. apply bind_Panic.
  unfold readAndMaybeDecompressBody. apply bind_Panic.
  unfold io_ReadAll. simpl. rewrite Hl. reflexivity.
Qed.

Lemma new_loc_fresh w : heap w !! new_loc w = None.
Proof. unfold new_loc. apply not_elem_of_dom, is_fresh. Qed.

(** The body stage of a dump on a readable body: the body is read, its
    decoded form logged, and a new stream over the raw bytes installed. *)
Lemma restored_stream_facts B l o' E entry w w2 :
  w2 = logged (after_decode E B (after_read w l o')) entry →
  CallReadAll l ∈ calls (with_new_reader B w2)
  ∧ heap w !! new_loc w2 = None
  ∧ heap (with_new_reader B w2) !! new_loc w2 = Some (BytesReader B 0)
  ∧ ∃ w'', io_ReadAll (Some (new_loc w2)) (with_new_reader B w2)
           = Ret (Some B, None) w''.
Proof.
  intros ->. split; [|split; [|split]].
  - simpl. rewrite calls_after_decode. simpl.
    rewrite !elem_of_app. left. right. left.
  - pose proof (new_loc_fresh (logged (after_decode E B (after_read w l o')) entry))
      as H.
    simpl in H. rewrite heap_after_decode in H. simpl in H.
    apply lookup_insert_None in H as [H _]. exact H.
  - simpl. apply lookup_insert_eq.
  - eexists. apply io_ReadAll_BytesReader. simpl. apply lookup_insert_eq.
Qed.

Lemma dumpHTTPRequest_restores gz d req w l B w_ :
  req_Body req = Some l →
  io_ReadAll (Some l) w = Ret (Some B, None) w_ →
  ∃ l' w',
    dumpHTTPRequest gz d req w = Ret (req_set_Body req (Some l')) w'
    ∧ log w' = log w ++ [request_header_entry d req;
                         Printf fmt_request_body
                           (ArgBytes (Some (decoded_for gz
                              (Header_Get (req_Header req) "Content-Encoding") B)))]
    ∧ CallReadAll l ∈ calls w'
    ∧ heap w !! l' = None
    ∧ heap w' !! l' = Some (BytesReader B 0)
    ∧ ∃ w'', io_ReadAll (Some l') w' = Ret (Some B, None) w''.
Proof.
  intros Hb H. apply io_ReadAll_Ret in H as (l0 & o & o' & Heq & Hl & Hr).
  injection Heq as <-.
  rewrite (dumpHTTPRequest_run gz d req w l o B None o' Hb Hl Hr). cbv zeta.
  eexists _, _. split; [reflexivity|]. split.
  - simpl. rewrite log_after_decode. simpl. by rewrite <- app_assoc.
  - exact (restored_stream_facts B l o' _ _
             (logged w (request_header_entry d req)) _ eq_refl).
Qed.

Lemma dumpHTTPResponse_restores gz d resp w l B w_ :
  resp_Body resp = Some l →
  io_ReadAll (Some l) w = Ret (Some B, None) w_ →
  ∃ l' w',
    dumpHTTPResponse gz d resp w = Ret (resp_set_Body resp (Some l')) w'
    ∧ log w' = log w ++ [response_header_entry d resp;
                         Printf fmt_response_body
                           (ArgBytes (Some (decoded_for gz
                              (Header_Get (resp_Header resp) "Content-Encoding") B)))]
    ∧ CallReadAll l ∈ calls w'
    ∧ heap w !! l' = None
    ∧ heap w' !! l' = Some (BytesReader B 0)
    ∧ ∃ w'', io_ReadAll (Some l') w' = Ret (Some B, None) w''.
Proof.
  intros Hb H. apply io_ReadAll_Ret in H as (l0 & o & o' & Heq & Hl & Hr).
  injection Heq as <-.
  rewrite (dumpHTTPResponse_run gz d resp w l o B None o' Hb Hl Hr). cbv zeta.
  eexists _, _. split; [reflexivity|]. split.
  - simpl. rewrite log_after_decode. simpl. by rewrite <- app_assoc.
  - exact (restored_stream_facts B l o' _ _
             (logged w (response_header_entry d resp)) _ eq_refl).
Qed.

(** A dump returns when the body is a stream; a request dump also when
    there is no body. *)
Lemma dumpHTTPRequest_returns gz d req w :
  req_Body req = None ∨ live w (req_Body req) →
  ∃ req' w', dumpHTTPRequest gz d req w = Ret req' w'.
Proof.
  intros [Hb|(l & Hb & [o Hl])].
  - rewrite (dumpHTTPRequest_nil gz d req w Hb). eauto.
  - destruct (readAll_object o) as [[B e] o'] eqn:Hr.
    rewrite (dumpHTTPRequest_run gz d req w l o B e o' Hb Hl Hr). cbv zeta.
    destruct e; eauto.
Qed.

Lemma dumpHTTPResponse_returns gz d resp w :
  live w (resp_Body resp) →
  ∃ resp' w' l,
    dumpHTTPResponse gz d resp w = Ret resp' w'
    ∧ resp_Body resp = Some l ∧ CallReadAll l ∈ calls w'.
Proof.
  intros (l & Hb & [o Hl]).
  destruct (readAll_object o) as [[B e] o'] eqn:Hr.
  rewrite (dumpHTTPResponse_run gz d resp w l o B e o' Hb Hl Hr). cbv zeta.
  destruct e as [e|]; eexists _, _, l; (split; [reflexivity|]); (split; [exact Hb|]).
  - simpl. rewrite !elem_of_app. right. left.
  - simpl. rewrite calls_after_decode. simpl. rewrite !elem_of_app. left. right. left.
Qed.

(** C1. Capture followed by restore is the identity on the body: when the
    body stream would read as [B], the capture succeeds, whatever the
    encoding declaration and the decompressor, and the stream that the
    returned restore factory makes reads as exactly [B].  So a request or a
    response that is dumped with this body carries, after the dump, a body
    that reads as exactly [B]. *)
Theorem capture_restore_roundtrip gz body E B w w_ :
  io_ReadAll body w = Ret (Some B, None) w_ →
  (∃ c w1 f,
     readAndMaybeDecompressBody gz body E w = Ret c w1
     ∧ err c = None ∧ rawBody c = Some B ∧ restore c = Some f
     ∧ ∀ w2, ∃ r w3 w4, f w2 = Ret r w3 ∧ io_ReadAll r w3 = Ret (Some B, None) w4)
  ∧ (∀ d req, req_Body req = body →
       ∃ req' w' w'',
         dumpHTTPRequest gz d req w = Ret req' w'
         ∧ io_ReadAll (req_Body req') w' = Ret (Some B, None) w'')
  ∧ (∀ d resp, resp_Body resp = body →
       ∃ resp' w' w'',
         dumpHTTPResponse gz d resp w = Ret resp' w'
         ∧ io_ReadAll (resp_Body resp') w' = Ret (Some B, None) w'').
Proof.
  intros H. split; [|split].
  - apply io_ReadAll_Ret in H as (l & o & o' & -> & Hl & Hr).
    rewrite (capture_run gz E w l o B None o' Hl Hr).
    eexists _, _, _. split; [reflexivity|]. simpl.
    repeat (split; [reflexivity|]). apply restore_then_read.
  - intros d req Hb.
    destruct (io_ReadAll_Ret _ _ _ _ _ H) as (l & _ & _ & -> & _).
    destruct (dumpHTTPRequest_restores gz d req w l B w_ Hb H)
      as (l' & w' & Hrun & _ & _ & _ & _ & w'' & Hread).
    exists (req_set_Body req (Some l')), w', w''. split; assumption.
  - intros d resp Hb.
    destruct (io_ReadAll_Ret _ _ _ _ _ H) as (l & _ & _ & -> & _).
    destruct (dumpHTTPResponse_restores gz d resp w l B w_ Hb H)
      as (l' & w' & Hrun & _ & _ & _ & _ & w'' & Hread).
    exists (resp_set_Body resp (Some l')), w', w''. split; assumption.
Qed.

Lemma capture_restore_roundtrip_witness :
  (∃ c w1 f,
     readAndMaybeDecompressBody Demo.gzip_NewReader (Some 0) "gzip"
       (Demo.with_body [(Demo.ok_gz, None)]) = Ret c w1
     ∧ err c = None ∧ rawBody c = Some Demo.ok_gz ∧ restore c = Some f
     ∧ ∀ w2, ∃ r w3 w4,
         f w2 = Ret r w3 ∧ io_ReadAll r w3 = Ret (Some Demo.ok_gz, None) w4)
  ∧ (∀ d req, req_Body req = Some 0 →
       ∃ req' w' w'',
         dumpHTTPRequest Demo.gzip_NewReader d req
           (Demo.with_body [(Demo.ok_gz, None)]) = Ret req' w'
         ∧ io_ReadAll (req_Body req') w' = Ret (Some Demo.ok_gz, None) w'')
  ∧ (∀ d resp, resp_Body resp = Some 0 →
       ∃ resp' w' w'',
         dumpHTTPResponse Demo.gzip_NewReader d resp
           (Demo.with_body [(Demo.ok_gz, None)]) = Ret resp' w'
         ∧ io_ReadAll (resp_Body resp') w' = Ret (Some Demo.ok_gz, None) w'').
Proof.
  eapply (capture_restore_roundtrip Demo.gzip_NewReader (Some 0) "gzip"
            Demo.ok_gz (Demo.with_body [(Demo.ok_gz, None)])).
  vm_compute. reflexivity.
Defined.

(** The header renderer only decides the header record: the result of a
    dump, the store, the calls made and the records that follow the header
    record are the same for any two renderers. *)
Lemma dumpHTTPRequest_header_independent gz d d' req w :
  forget_log (dumpHTTPRequest gz d req w) = forget_log (dumpHTTPRequest gz d' req w)
  ∧ ∃ rest,
      outcome_log (dumpHTTPRequest gz d req w)
      = log w ++ request_header_entry d req :: rest
      ∧ outcome_log (dumpHTTPRequest gz d' req w)
        = log w ++ request_header_entry d' req :: rest.
Proof.
  destruct (req_Body req) as [l|] eqn:Hb.
  2: { rewrite !(dumpHTTPRequest_nil gz _ req w Hb).
       split; [reflexivity|]. exists []. split; reflexivity. }
  destruct (heap w !! l) as [o|] eqn:Hl.
  2: { rewrite !(dumpHTTPRequest_dangling gz _ req w l Hb Hl).
       split; [reflexivity|]. exists []. split; reflexivity. }
  destruct (readAll_object o) as [[B e] o'] eqn:Hr.
  rewrite !(dumpHTTPRequest_run gz _ req w l o B e o' Hb Hl Hr). cbv zeta.
  destruct e as [e|].
  - split; [reflexivity|]. eexists [_]. simpl.
    split; by rewrite <- app_assoc.
  - split.
    + simpl. unfold new_loc. simpl.
      rewrite !heap_after_decode, !calls_after_decode. reflexivity.
    + eexists [_]. simpl. rewrite !log_after_decode. simpl.
      split; by rewrite <- app_assoc.
Qed.

Lemma dumpHTTPResponse_header_independent gz d d' resp w :
  forget_log (dumpHTTPResponse gz d resp w) = forget_log (dumpHTTPResponse gz d' resp w)
  ∧ ∃ rest,
      outcome_log (dumpHTTPResponse gz d resp w)
      = log w ++ response_header_entry d resp :: rest
      ∧ outcome_log (dumpHTTPResponse gz d' resp w)
        = log w ++ response_header_entry d' resp :: rest.
Proof.
  destruct (resp_Body resp) as [l|] eqn:Hb.
  2: { rewrite !(dumpHTTPResponse_nil gz _ resp w Hb).
       split; [reflexivity|]. exists []. split; reflexivity. }
  destruct (heap w !! l) as [o|] eqn:Hl.
  2: { rewrite !(dumpHTTPResponse_dangling gz _ resp w l Hb Hl).
       split; [reflexivity|]. exists []. split; reflexivity. }
  destruct (readAll_object o) as [[B e] o'] eqn:Hr.
  rewrite !(dumpHTTPResponse_run gz _ resp w l o B e o' Hb Hl Hr). cbv zeta.
  destruct e as [e|].
  - split; [reflexivity|]. eexists [_]. simpl.
    split; by rewrite <- app_assoc.
  - split.
    + simpl. unfold new_loc. simpl.
      rewrite !heap_after_decode, !calls_after_decode. reflexivity.
    + eexists [_]. simpl. rewrite !log_after_decode. simpl.
      split; by rewrite <- app_assoc.
Qed.

(** C6, as amended. For a request whose body is nil, [dumpHTTPRequest]
    writes one log record, the one of the header step (the header block when
    the rendering succeeds, the failure line when it fails), and nothing
    else: no body record, no call on any stream, no change to the store, and
    the request is returned with every field as it was. *)
Theorem nil_body_request_header_step_only gz d req w :
  req_Body req = None →
  ∃ entry,
    dumpHTTPRequest gz d req w = Ret req (World (heap w) (log w ++ [entry]) (calls w))
    ∧ (∀ h, d req = Ok h → entry = Printf fmt_request_headers (ArgBytes (Some h)))
    ∧ (∀ e, d req = Err e → entry = Printf fmt_request_headers_error (ArgErr e)).
Proof.
  intros Hb. exists (request_header_entry d req).
  split; [exact (dumpHTTPRequest_nil gz d req w Hb)|].
  unfold request_header_entry.
  split; [intros h ->|intros e ->]; reflexivity.
Qed.

Lemma nil_body_request_header_step_only_witness :
  ∃ entry,
    dumpHTTPRequest Demo.gzip_NewReader Demo.DumpRequestOut Demo.health_request Demo.w0
    = Ret Demo.health_request
          (World (heap Demo.w0) (log Demo.w0 ++ [entry]) (calls Demo.w0))
    ∧ (∀ h, Demo.DumpRequestOut Demo.health_request = Ok h →
         entry = Printf fmt_request_headers (ArgBytes (Some h)))
    ∧ (∀ e, Demo.DumpRequestOut Demo.health_request = Err e →
         entry = Printf fmt_request_headers_error (ArgErr e)).
Proof.
  apply (nil_body_request_header_step_only Demo.gzip_NewReader Demo.DumpRequestOut
           Demo.health_request Demo.w0).
  reflexivity.
Defined.

(** C6, as stated, fails when the header rendering fails: the request with
    the method [GET /] and no body gets the failure line logged, and no
    header block. *)
Lemma nil_body_request_without_header_block :
  req_Body Demo.malformed_request = None
  ∧ dumpHTTPRequest Demo.gzip_NewReader Demo.DumpRequestOut Demo.malformed_request Demo.w0
    = Ret Demo.malformed_request
          (World ∅ [Printf fmt_request_headers_error
                      (ArgErr (ErrNew "net/http: invalid method"))] [])
  ∧ ¬ ∃ h w',
        dumpHTTPRequest Demo.gzip_NewReader Demo.DumpRequestOut
          Demo.malformed_request Demo.w0 = Ret Demo.malformed_request w'
        ∧ log w' = log Demo.w0 ++ [Printf fmt_request_headers (ArgBytes h)].
Proof.
  split; [reflexivity|].
  assert (Hrun : dumpHTTPRequest Demo.gzip_NewReader Demo.DumpRequestOut
                   Demo.malformed_request Demo.w0
                 = Ret Demo.malformed_request
                     (World ∅ [Printf fmt_request_headers_error
                                 (ArgErr (ErrNew "net/http: invalid method"))] []))
    by (vm_compute; reflexivity).
  split; [exact Hrun|].
  intros (h & w' & Hrun' & Hlog). rewrite Hrun in Hrun'.
  injection Hrun' as <-. simpl in Hlog. discriminate.
Qed.

(** C7, as amended. Whatever the header renderers, the decompressor and the
    body streams do (rendering failure, read failure, decompression
    failure), [dumpHTTPRequest] returns for every request whose body is nil
    or a stream, and [dumpHTTPResponse] returns for every response whose
    body is a stream (not nil); the response hook then returns a nil
    error. *)
Theorem dumps_return_normally gz dresp dreq w :
  (∀ req, req_Body req = None ∨ live w (req_Body req) →
     ∃ req' w', dumpHTTPRequest gz dreq req w = Ret req' w')
  ∧ (∀ resp, live w (resp_Body resp) →
       ∃ resp' w',
         dumpHTTPResponse gz dresp resp w = Ret resp' w'
         ∧ ModifyResponse gz dresp resp w = Ret (resp', None) w').
Proof.
  split.
  - intros req Hb. exact (dumpHTTPRequest_returns gz dreq req w Hb).
  - intros resp Hb.
    destruct (dumpHTTPResponse_returns gz dresp resp w Hb)
      as (resp' & w' & l & Hrun & _).
    exists resp', w'. split; [exact Hrun|].
    unfold ModifyResponse. rewrite (bind_Ret _ _ _ _ _ Hrun). reflexivity.
Qed.

Lemma dumps_return_normally_witness :
  (∃ req' w',
     dumpHTTPRequest Demo.gzip_NewReader Demo.DumpRequestOut
       Demo.malformed_post_request
       (Demo.with_body [(Demo.ok_gz_damaged, None);
                        ([], Some (ErrNew "connection reset"))])
     = Ret req' w')
  ∧ (∃ resp' w',
       dumpHTTPResponse Demo.gzip_NewReader Demo.DumpResponse_failing
         Demo.ok_response
         (Demo.with_body [(Demo.ok_gz_damaged, None);
                          ([], Some (ErrNew "connection reset"))])
       = Ret resp' w'
       ∧ ModifyResponse Demo.gzip_NewReader Demo.DumpResponse_failing
           Demo.ok_response
           (Demo.with_body [(Demo.ok_gz_damaged, None);
                            ([], Some (ErrNew "connection reset"))])
         = Ret (resp', None) w').
Proof.
  destruct (dumps_return_normally Demo.gzip_NewReader Demo.DumpResponse_failing
              Demo.DumpRequestOut
              (Demo.with_body [(Demo.ok_gz_damaged, None);
                               ([], Some (ErrNew "connection reset"))]))
    as [Hreq Hresp].
  split.
  - apply Hreq. right. exists 0. split; [reflexivity|].
    eexists. vm_compute. reflexivity.
  - apply Hresp. exists 0. split; [reflexivity|].
    eexists. vm_compute. reflexivity.
Defined.

(** C7, as stated, fails on a response whose body is nil: the dump faults
    on the read of the body, and so does the hook, which returns nothing. *)
Lemma nil_body_response_hook_faults :
  resp_Body Demo.bodyless_response = None
  ∧ (∃ w', dumpHTTPResponse Demo.gzip_NewReader Demo.DumpResponse
             Demo.bodyless_response Demo.w0 = Panic nil_dereference w')
  ∧ (∃ w', ModifyResponse Demo.gzip_NewReader Demo.DumpResponse
             Demo.bodyless_response Demo.w0 = Panic nil_dereference w')
  ∧ ¬ ∃ r w', ModifyResponse Demo.gzip_NewReader Demo.DumpResponse
                Demo.bodyless_response Demo.w0 = Ret r w'.
Proof.
  split; [reflexivity|].
  pose proof (dumpHTTPResponse_nil Demo.gzip_NewReader Demo.DumpResponse
                Demo.bodyless_response Demo.w0 eq_refl) as Hrun.
  pose proof (bind_Panic _ (λ resp', mret (resp', @None error)) _ _ _ Hrun)
    as Hhook.
  split; [eexists; exact Hrun|].
  split; [eexists; exact Hhook|].
  intros (r & w' & Hret). unfold ModifyResponse in Hret.
  rewrite Hhook in Hret. discriminate.
Qed.

(** C8. When the header rendering fails, the dump writes the failure line
    and goes on with the body exactly as it does after a successful
    rendering: its result, the store, the calls made and the records after
    the header record are those of the dump with any other renderer.  In
    particular a body that reads as [B] is read and closed, and the [Body]
    field of the message the dump leaves is a new stream that reads as
    [B]. *)
Theorem header_failure_keeps_body_handling gz :
  (∀ d req w e,
     d req = Err e →
     (∀ d', forget_log (dumpHTTPRequest gz d req w)
            = forget_log (dumpHTTPRequest gz d' req w)
            ∧ ∃ rest,
                outcome_log (dumpHTTPRequest gz d req w)
                = log w ++ Printf fmt_request_headers_error (ArgErr e) :: rest
                ∧ outcome_log (dumpHTTPRequest gz d' req w)
                  = log w ++ request_header_entry d' req :: rest)
     ∧ (∀ l B w_,
          req_Body req = Some l →
          io_ReadAll (Some l) w = Ret (Some B, None) w_ →
          ∃ req' l' w',
            dumpHTTPRequest gz d req w = Ret req' w'
            ∧ req' = req_set_Body req (Some l')
            ∧ req_Body req' = Some l'
            ∧ CallReadAll l ∈ calls w'
            ∧ heap w !! l' = None
            ∧ heap w' !! l' = Some (BytesReader B 0)
            ∧ ∃ w'', io_ReadAll (req_Body req') w' = Ret (Some B, None) w''))
  ∧ (∀ d resp w e,
       d resp = Err e →
       (∀ d', forget_log (dumpHTTPResponse gz d resp w)
              = forget_log (dumpHTTPResponse gz d' resp w)
              ∧ ∃ rest,
                  outcome_log (dumpHTTPResponse gz d resp w)
                  = log w ++ Printf fmt_response_headers_error (ArgErr e) :: rest
                  ∧ outcome_log (dumpHTTPResponse gz d' resp w)
                    = log w ++ response_header_entry d' resp :: rest)
       ∧ (∀ l B w_,
            resp_Body resp = Some l →
            io_ReadAll (Some l) w = Ret (Some B, None) w_ →
            ∃ resp' l' w',
              dumpHTTPResponse gz d resp w = Ret resp' w'
              ∧ resp' = resp_set_Body resp (Some l')
              ∧ resp_Body resp' = Some l'
              ∧ CallReadAll l ∈ calls w'
              ∧ heap w !! l' = None
              ∧ heap w' !! l' = Some (BytesReader B 0)
              ∧ ∃ w'', io_ReadAll (resp_Body resp') w' = Ret (Some B, None) w'')).
Proof.
  split.
  - intros d req w e Hd. split.
    + intros d'.
      destruct (dumpHTTPRequest_header_independent gz d d' req w)
        as (Hsame & rest & Hlog & Hlog').
      split; [exact Hsame|]. exists rest.
      unfold request_header_entry in Hlog at 1. rewrite Hd in Hlog.
      split; assumption.
    + intros l B w_ Hb Hread.
      destruct (dumpHTTPRequest_restores gz d req w l B w_ Hb Hread)
        as (l' & w' & Hrun & _ & Hcall & Hfresh & Hnew & Hreads).
      exists (req_set_Body req (Some l')), l', w'.
      split; [exact Hrun|]. split; [reflexivity|]. split; [reflexivity|].
      repeat (split; [assumption|]). exact Hreads.
  - intros d resp w e Hd. split.
    + intros d'.
      destruct (dumpHTTPResponse_header_independent gz d d' resp w)
        as (Hsame & rest & Hlog & Hlog').
      split; [exact Hsame|]. exists rest.
      unfold response_header_entry in Hlog at 1. rewrite Hd in Hlog.
      split; assumption.
    + intros l B w_ Hb Hread.
      destruct (dumpHTTPResponse_restores gz d resp w l B w_ Hb Hread)
        as (l' & w' & Hrun & _ & Hcall & Hfresh & Hnew & Hreads).
      exists (resp_set_Body resp (Some l')), l', w'.
      split; [exact Hrun|]. split; [reflexivity|]. split; [reflexivity|].
      repeat (split; [assumption|]). exact Hreads.
Qed.

Lemma header_failure_keeps_body_handling_witness :
  (∃ req' l' w',
     dumpHTTPRequest Demo.gzip_NewReader Demo.DumpRequestOut
       Demo.malformed_post_request (Demo.with_body [(Demo.ok_gz, None)])
     = Ret req' w'
     ∧ req' = req_set_Body Demo.malformed_post_request (Some l')
     ∧ req_Body req' = Some l'
     ∧ CallReadAll 0 ∈ calls w'
     ∧ heap (Demo.with_body [(Demo.ok_gz, None)]) !! l' = None
     ∧ heap w' !! l' = Some (BytesReader Demo.ok_gz 0)
     ∧ ∃ w'', io_ReadAll (req_Body req') w' = Ret (Some Demo.ok_gz, None) w'')
  ∧ (∃ resp' l' w',
       dumpHTTPResponse Demo.gzip_NewReader Demo.DumpResponse_failing
         Demo.ok_response (Demo.with_body [(Demo.ok, None)])
       = Ret resp' w'
       ∧ resp' = resp_set_Body Demo.ok_response (Some l')
       ∧ resp_Body resp' = Some l'
       ∧ CallReadAll 0 ∈ calls w'
       ∧ heap (Demo.with_body [(Demo.ok, None)]) !! l' = None
       ∧ heap w' !! l' = Some (BytesReader Demo.ok 0)
       ∧ ∃ w'', io_ReadAll (resp_Body resp') w' = Ret (Some Demo.ok, None) w'').
Proof.
  destruct (header_failure_keeps_body_handling Demo.gzip_NewReader) as [Hreq Hresp].
  split.
  - destruct (Hreq Demo.DumpRequestOut Demo.malformed_post_request
                (Demo.with_body [(Demo.ok_gz, None)])
                (ErrNew "net/http: invalid method") eq_refl) as [_ Hbody].
    eapply (Hbody 0 Demo.ok_gz); [reflexivity|].
    vm_compute. reflexivity.
  - destruct (Hresp Demo.DumpResponse_failing Demo.ok_response
                (Demo.with_body [(Demo.ok, None)])
                (ErrNew "http: invalid response") eq_refl) as [_ Hbody].
    eapply (Hbody 0 Demo.ok); [reflexivity|].
    vm_compute. reflexivity.
Defined.

(** C9. [dumpHTTPResponse] reads the body without a nil check.  A response
    whose body is nil makes it fault with a nil dereference, after the
    header record has been written, where [dumpHTTPRequest] returns for a
    request whose body is nil; a response whose body is a stream has that
    stream read, and the dump returns. *)
Theorem response_dump_needs_a_body gz dresp dreq w :
  (∀ resp,
     resp_Body resp = None →
     dumpHTTPResponse gz dresp resp w
     = Panic nil_dereference
             (World (heap w) (log w ++ [response_header_entry dresp resp]) (calls w)))
  ∧ (∀ req,
       req_Body req = None →
       dumpHTTPRequest gz dreq req w
       = Ret req (World (heap w) (log w ++ [request_header_entry dreq req]) (calls w)))
  ∧ (∀ resp,
       live w (resp_Body resp) →
       ∃ resp' w' l,
         dumpHTTPResponse gz dresp resp w = Ret resp' w'
         ∧ resp_Body resp = Some l ∧ CallReadAll l ∈ calls w').
Proof.
  split; [|split].
  - intros resp Hb. exact (dumpHTTPResponse_nil gz dresp resp w Hb).
  - intros req Hb. exact (dumpHTTPRequest_nil gz dreq req w Hb).
  - intros resp Hb. exact (dumpHTTPResponse_returns gz dresp resp w Hb).
Qed.

Lemma response_dump_needs_a_body_witness :
  dumpHTTPResponse Demo.gzip_NewReader Demo.DumpResponse Demo.bodyless_response
    (Demo.with_body [(Demo.ok, None)])
  = Panic nil_dereference
      (World (heap (Demo.with_body [(Demo.ok, None)]))
         (log (Demo.with_body [(Demo.ok, None)])
          ++ [response_header_entry Demo.DumpResponse Demo.bodyless_response])
         (calls (Demo.with_body [(Demo.ok, None)])))
  ∧ dumpHTTPRequest Demo.gzip_NewReader Demo.DumpRequestOut Demo.health_request
      (Demo.with_body [(Demo.ok, None)])
    = Ret Demo.health_request
        (World (heap (Demo.with_body [(Demo.ok, None)]))
           (log (Demo.with_body [(Demo.ok, None)])
            ++ [request_header_entry Demo.DumpRequestOut Demo.health_request])
           (calls (Demo.with_body [(Demo.ok, None)])))
  ∧ ∃ resp' w' l,
      dumpHTTPResponse Demo.gzip_NewReader Demo.DumpResponse Demo.ok_response
        (Demo.with_body [(Demo.ok, None)]) = Ret resp' w'
      ∧ resp_Body Demo.ok_response = Some l ∧ CallReadAll l ∈ calls w'.
Proof.
  destruct (response_dump_needs_a_body Demo.gzip_NewReader Demo.DumpResponse
              Demo.DumpRequestOut (Demo.with_body [(Demo.ok, None)]))
    as (Hnil & Hreq & Hlive).
  split; [apply Hnil; reflexivity|].
  split; [apply Hreq; reflexivity|].
  apply Hlive. exists 0. split; [reflexivity|].
  eexists. vm_compute. reflexivity.
Defined.

(** The dump of a gzip request: the log shows the header block and the
    decoded body, the request gets a new stream over the compressed bytes,
    and the stream it came with is drained and closed. *)
Example dump_post_request :
  ∃ w',
    dumpHTTPRequest Demo.gzip_NewReader Demo.DumpRequestOut Demo.post_request
      (Demo.with_body [(Demo.ok_gz, None)])
    = Ret (req_set_Body Demo.post_request (Some 1)) w'
    ∧ heap w' = {[ 0 := ExternReader [] true; 1 := BytesReader Demo.ok_gz 0 ]}
    ∧ log w' = [request_header_entry Demo.DumpRequestOut Demo.post_request;
                Printf fmt_request_body (ArgBytes (Some Demo.ok))]
    ∧ calls w' = [CallReadAll 0; CallClose 0; CallGzipNewReader Demo.ok_gz].
Proof.
  eexists. split; [vm_compute; reflexivity|].
  split; [|split]; vm_compute; reflexivity.
Qed.

(** A body whose read breaks off: the failure is logged and the response
    keeps the drained stream it came with. *)
Example dump_response_read_error :
  dumpHTTPResponse Demo.gzip_NewReader Demo.DumpResponse Demo.ok_response
    (Demo.with_body [(Demo.ok, None); ([], Some (ErrNew "connection reset"))])
  = Ret Demo.ok_response
      (World {[ 0 := ExternReader [] true ]}
         [response_header_entry Demo.DumpResponse Demo.ok_response;
          Printf fmt_response_body_error (ArgErr (ErrNew "connection reset"))]
         [CallReadAll 0; CallClose 0]).
Proof. vm_compute. reflexivity. Qed.

(** * Further properties of the capture, the dumps and the transport *)

(** X1. The capture reads the body and closes it, in this order and whether or
    not the read fails; a body from outside is left closed.  It touches no
    other stream, writes no log record and makes no other call than, at
    most, the one to the decompressor. *)
Theorem capture_reads_then_closes gz E w l o B e o' :
  heap w !! l = Some o →
  readAll_object o = (B, e, o') →
  ∃ c w1 tail,
    readAndMaybeDecompressBody gz (Some l) E w = Ret c w1
    ∧ heap w1 = <[l := close_object o']> (heap w)
    ∧ log w1 = log w
    ∧ calls w1 = calls w ++ [CallReadAll l; CallClose l] ++ tail
    ∧ (∀ c', c' ∈ tail → c' = CallGzipNewReader B)
    ∧ (∀ script closed, o = ExternReader script closed →
         ∃ rest, heap w1 !! l = Some (ExternReader rest true)).
Proof.
  intros Hl Hr.
  assert (Hclosed : ∀ h : gmap nat object, ∀ script closed,
             o = ExternReader script closed →
             ∃ rest, <[l := close_object o']> h !! l = Some (ExternReader rest true)).
  { intros h script closed ->. simpl in Hr.
    destruct (readAll_script [] script) as [[b e'] rest].
    injection Hr as _ _ <-. exists rest. apply lookup_insert_eq. }
  rewrite (capture_run gz E w l o B e o' Hl Hr).
  destruct e as [e|].
  - eexists _, _, []. split; [reflexivity|]. simpl.
    do 3 (split; [reflexivity|]).
    split; [intros c' Hin; inversion Hin|]. apply Hclosed.
  - eexists _, _, (if String.eqb E "gzip" then [CallGzipNewReader B] else []).
    split; [reflexivity|].
    rewrite heap_after_decode, log_after_decode, calls_after_decode. simpl.
    do 2 (split; [reflexivity|]).
    split; [by rewrite <- app_assoc|].
    split; [|apply Hclosed].
    intros c' Hin. destruct (String.eqb E "gzip").
    + apply list_elem_of_singleton in Hin. exact Hin.
    + inversion Hin.
Qed.

Lemma capture_reads_then_closes_witness :
  ∃ c w1 tail,
    readAndMaybeDecompressBody Demo.gzip_NewReader (Some 0) "gzip"
      (Demo.with_body [(Demo.ok, None); ([], Some (ErrNew "connection reset"))])
    = Ret c w1
    ∧ heap w1
      = <[0 := close_object (ExternReader [] false)]>
          (heap (Demo.with_body
                   [(Demo.ok, None); ([], Some (ErrNew "connection reset"))]))
    ∧ log w1 = log (Demo.with_body
                      [(Demo.ok, None); ([], Some (ErrNew "connection reset"))])
    ∧ calls w1
      = calls (Demo.with_body
                 [(Demo.ok, None); ([], Some (ErrNew "connection reset"))])
        ++ [CallReadAll 0; CallClose 0] ++ tail
    ∧ (∀ c', c' ∈ tail → c' = CallGzipNewReader Demo.ok)
    ∧ (∀ script closed,
         ExternReader [(Demo.ok, None); ([], Some (ErrNew "connection reset"))] false
         = ExternReader script closed →
         ∃ rest, heap w1 !! 0 = Some (ExternReader rest true)).
Proof.
  eapply (capture_reads_then_closes Demo.gzip_NewReader "gzip"
            (Demo.with_body [(Demo.ok, None); ([], Some (ErrNew "connection reset"))])
            0 _ Demo.ok (Some (ErrNew "connection reset"))).
  - vm_compute. reflexivity.
  - vm_compute. reflexivity.
Defined.

(** X2. When the read of a request body fails, [dumpHTTPRequest] logs the
    failure after the header record and returns the request as it came: no
    body record is written, no stream is made, the decompressor is not
    called, and the body is the stream the failed read left behind, now
    closed. *)
Theorem request_read_failure_not_restored gz d req w l B e w_ :
  req_Body req = Some l →
  io_ReadAll (Some l) w = Ret (Some B, Some e) w_ →
  ∃ w' o',
    dumpHTTPRequest gz d req w = Ret req w'
    ∧ log w' = log w ++ [request_header_entry d req;
                         Printf fmt_request_body_error (ArgErr e)]
    ∧ calls w' = calls w ++ [CallReadAll l; CallClose l]
    ∧ heap w_ !! l = Some o'
    ∧ heap w' = <[l := close_object o']> (heap w)
    ∧ dom (heap w') = dom (heap w).
Proof.
  intros Hb H.
  pose proof H as H0.
  apply io_ReadAll_Ret in H as (l0 & o & o' & Heq & Hl & Hr).
  injection Heq as <-.
  unfold io_ReadAll in H0. rewrite Hl, Hr in H0. injection H0 as <-.
  rewrite (dumpHTTPRequest_run gz d req w l o B (Some e) o' Hb Hl Hr). cbv zeta.
  eexists _, o'. split; [reflexivity|]. simpl.
  split; [by rewrite <- app_assoc|]. split; [reflexivity|].
  split; [apply lookup_insert_eq|]. split; [reflexivity|].
  apply dom_insert_lookup_L. eauto.
Qed.

Lemma request_read_failure_not_restored_witness :
  ∃ w' o',
    dumpHTTPRequest Demo.gzip_NewReader Demo.DumpRequestOut Demo.post_request
      (Demo.with_body [(Demo.ok, None); ([], Some (ErrNew "connection reset"))])
    = Ret Demo.post_request w'
    ∧ log w'
      = log (Demo.with_body [(Demo.ok, None); ([], Some (ErrNew "connection reset"))])
        ++ [request_header_entry Demo.DumpRequestOut Demo.post_request;
            Printf fmt_request_body_error (ArgErr (ErrNew "connection reset"))]
    ∧ calls w'
      = calls (Demo.with_body [(Demo.ok, None); ([], Some (ErrNew "connection reset"))])
        ++ [CallReadAll 0; CallClose 0]
    ∧ heap (World {[ 0 := ExternReader [] false ]} [] [CallReadAll 0]) !! 0 = Some o'
    ∧ heap w'
      = <[0 := close_object o']>
          (heap (Demo.with_body
                   [(Demo.ok, None); ([], Some (ErrNew "connection reset"))]))
    ∧ dom (heap w')
      = dom (heap (Demo.with_body
                     [(Demo.ok, None); ([], Some (ErrNew "connection reset"))])).
Proof.
  eapply (request_read_failure_not_restored Demo.gzip_NewReader Demo.DumpRequestOut
            Demo.post_request
            (Demo.with_body [(Demo.ok, None); ([], Some (ErrNew "connection reset"))])
            0 Demo.ok (ErrNew "connection reset")).
  - reflexivity.
  - vm_compute. reflexivity.
Defined.

(** X3. The same for a response: a failed read of its body is logged, and the
    response is returned with the drained, closed stream it came with. *)
Theorem response_read_failure_not_restored gz d resp w l B e w_ :
  resp_Body resp = Some l →
  io_ReadAll (Some l) w = Ret (Some B, Some e) w_ →
  ∃ w' o',
    dumpHTTPResponse gz d resp w = Ret resp w'
    ∧ log w' = log w ++ [response_header_entry d resp;
                         Printf fmt_response_body_error (ArgErr e)]
    ∧ calls w' = calls w ++ [CallReadAll l; CallClose l]
    ∧ heap w_ !! l = Some o'
    ∧ heap w' = <[l := close_object o']> (heap w)
    ∧ dom (heap w') = dom (heap w).
Proof.
  intros Hb H.
  pose proof H as H0.
  apply io_ReadAll_Ret in H as (l0 & o & o' & Heq & Hl & Hr).
  injection Heq as <-.
  unfold io_ReadAll in H0. rewrite Hl, Hr in H0. injection H0 as <-.
  rewrite (dumpHTTPResponse_run gz d resp w l o B (Some e) o' Hb Hl Hr). cbv zeta.
  eexists _, o'. split; [reflexivity|]. simpl.
  split; [by rewrite <- app_assoc|]. split; [reflexivity|].
  split; [apply lookup_insert_eq|]. split; [reflexivity|].
  apply dom_insert_lookup_L. eauto.
Qed.

Lemma response_read_failure_not_restored_witness :
  ∃ w' o',
    dumpHTTPResponse Demo.gzip_NewReader Demo.DumpResponse Demo.ok_response
      (Demo.with_body [(Demo.ok, None); ([], Some (ErrNew "connection reset"))])
    = Ret Demo.ok_response w'
    ∧ log w'
      = log (Demo.with_body [(Demo.ok, None); ([], Some (ErrNew "connection reset"))])
        ++ [response_header_entry Demo.DumpResponse Demo.ok_response;
            Printf fmt_response_body_error (ArgErr (ErrNew "connection reset"))]
    ∧ calls w'
      = calls (Demo.with_body [(Demo.ok, None); ([], Some (ErrNew "connection reset"))])
        ++ [CallReadAll 0; CallClose 0]
    ∧ heap (World {[ 0 := ExternReader [] false ]} [] [CallReadAll 0]) !! 0 = Some o'
    ∧ heap w'
      = <[0 := close_object o']>
          (heap (Demo.with_body
                   [(Demo.ok, None); ([], Some (ErrNew "connection reset"))]))
    ∧ dom (heap w')
      = dom (heap (Demo.with_body
                     [(Demo.ok, None); ([], Some (ErrNew "connection reset"))])).
Proof.
  eapply (response_read_failure_not_restored Demo.gzip_NewReader Demo.DumpResponse
            Demo.ok_response
            (Demo.with_body [(Demo.ok, None); ([], Some (ErrNew "connection reset"))])
            0 Demo.ok (ErrNew "connection reset")).
  - reflexivity.
  - vm_compute. reflexivity.
Defined.

(** The three ways a dump returns: no body (requests only), a body whose
    read failed, a body that was read. *)
Lemma dumpHTTPRequest_Ret_inv gz d req w req' w' :
  dumpHTTPRequest gz d req w = Ret req' w' →
  (req_Body req = None ∧ req' = req
   ∧ w' = logged w (request_header_entry d req))
  ∨ (∃ l o B e o',
       req_Body req = Some l ∧ heap w !! l = Some o
       ∧ readAll_object o = (B, Some e, o') ∧ req' = req
       ∧ w' = logged (after_read (logged w (request_header_entry d req)) l o')
                     (Printf fmt_request_body_error (ArgErr e)))
  ∨ (∃ l o B o' w2,
       req_Body req = Some l ∧ heap w !! l = Some o
       ∧ readAll_object o = (B, None, o')
       ∧ w2 = logged (after_decode (Header_Get (req_Header req) "Content-Encoding") B
                        (after_read (logged w (request_header_entry d req)) l o'))
                     (Printf fmt_request_body
                        (ArgBytes (Some (decoded_for gz
                           (Header_Get (req_Header req) "Content-Encoding") B))))
       ∧ req' = req_set_Body req (Some (new_loc w2))
       ∧ w' = with_new_reader B w2).
Proof.
  intros H. destruct (req_Body req) as [l|] eqn:Hb.
  2: { rewrite (dumpHTTPRequest_nil gz d req w Hb) in H.
       injection H as <- <-. left. done. }
  destruct (heap w !! l) as [o|] eqn:Hl.
  2: { rewrite (dumpHTTPRequest_dangling gz d req w l Hb Hl) in H. discriminate. }
  destruct (readAll_object o) as [[B e] o'] eqn:Hr.
  rewrite (dumpHTTPRequest_run gz d req w l o B e o' Hb Hl Hr) in H. cbv zeta in H.
  destruct e as [e|]; injection H as <- <-.
  - right. left. eauto 10.
  - right. right. eauto 12.
Qed.

Lemma dumpHTTPResponse_Ret_inv gz d resp w resp' w' :
  dumpHTTPResponse gz d resp w = Ret resp' w' →
  (∃ l o B e o',
     resp_Body resp = Some l ∧ heap w !! l = Some o
     ∧ readAll_object o = (B, Some e, o') ∧ resp' = resp
     ∧ w' = logged (after_read (logged w (response_header_entry d resp)) l o')
                   (Printf fmt_response_body_error (ArgErr e)))
  ∨ (∃ l o B o' w2,
       resp_Body resp = Some l ∧ heap w !! l = Some o
       ∧ readAll_object o = (B, None, o')
       ∧ w2 = logged (after_decode (Header_Get (resp_Header resp) "Content-Encoding") B
                        (after_read (logged w (response_header_entry d resp)) l o'))
                     (Printf fmt_response_body
                        (ArgBytes (Some (decoded_for gz
                           (Header_Get (resp_Header resp) "Content-Encoding") B))))
       ∧ resp' = resp_set_Body resp (Some (new_loc w2))
       ∧ w' = with_new_reader B w2).
Proof.
  intros H. destruct (resp_Body resp) as [l|] eqn:Hb.
  2: { rewrite (dumpHTTPResponse_nil gz d resp w Hb) in H. discriminate. }
  destruct (heap w !! l) as [o|] eqn:Hl.
  2: { rewrite (dumpHTTPResponse_dangling gz d resp w l Hb Hl) in H. discriminate. }
  destruct (readAll_object o) as [[B e] o'] eqn:Hr.
  rewrite (dumpHTTPResponse_run gz d resp w l o B e o' Hb Hl Hr) in H. cbv zeta in H.
  destruct e as [e|]; injection H as <- <-.
  - left. eauto 10.
  - right. eauto 12.
Qed.

Lemma req_set_Body_same req : req = req_set_Body req (req_Body req).
Proof. destruct req. reflexivity. Qed.

Lemma resp_set_Body_same resp : resp = resp_set_Body resp (resp_Body resp).
Proof. destruct resp. reflexivity. Qed.

(** Other streams are kept by the read of the body and by the new stream. *)
Lemma other_streams_kept (h : gmap nat object) l l' o1 o2 o n :
  l ≠ l' →
  h !! l' = Some o →
  <[n := o2]> (<[l := o1]> h) !! n = Some o2 →
  <[l := o1]> h !! n = None →
  <[n := o2]> (<[l := o1]> h) !! l' = Some o.
Proof.
  intros Hne Hl' _ Hfresh.
  rewrite lookup_insert_ne.
  - rewrite lookup_insert_ne; [exact Hl'|exact Hne].
  - intros ->. rewrite lookup_insert_ne in Hfresh; [|exact Hne].
    rewrite Hl' in Hfresh. discriminate.
Qed.

Lemma dumpHTTPRequest_keeps_others gz d req w req' w' l' o :
  dumpHTTPRequest gz d req w = Ret req' w' →
  req_Body req ≠ Some l' →
  heap w !! l' = Some o →
  heap w' !! l' = Some o.
Proof.
  intros H Hne Hl'. apply dumpHTTPRequest_Ret_inv in H
    as [(Hb & -> & ->)|[(l & o0 & B & e & o' & Hb & Hl & Hr & -> & ->)
                       |(l & o0 & B & o' & w2 & Hb & Hl & Hr & Hw2 & -> & ->)]].
  - exact Hl'.
  - simpl. rewrite lookup_insert_ne; [exact Hl'|].
    intros ->. by apply Hne.
  - pose proof (new_loc_fresh w2) as Hfresh.
    assert (Hh2 : heap w2 = <[l := close_object o']> (heap w))
      by (rewrite Hw2; simpl; by rewrite heap_after_decode).
    unfold with_new_reader. simpl. rewrite Hh2.
    apply other_streams_kept; [intros ->; by apply Hne|exact Hl'| |].
    + apply lookup_insert_eq.
    + rewrite <- Hh2. exact Hfresh.
Qed.

Lemma dumpHTTPResponse_keeps_others gz d resp w resp' w' l' o :
  dumpHTTPResponse gz d resp w = Ret resp' w' →
  resp_Body resp ≠ Some l' →
  heap w !! l' = Some o →
  heap w' !! l' = Some o.
Proof.
  intros H Hne Hl'. apply dumpHTTPResponse_Ret_inv in H
    as [(l & o0 & B & e & o' & Hb & Hl & Hr & -> & ->)
       |(l & o0 & B & o' & w2 & Hb & Hl & Hr & Hw2 & -> & ->)].
  - simpl. rewrite lookup_insert_ne; [exact Hl'|].
    intros ->. by apply Hne.
  - pose proof (new_loc_fresh w2) as Hfresh.
    assert (Hh2 : heap w2 = <[l := close_object o']> (heap w))
      by (rewrite Hw2; simpl; by rewrite heap_after_decode).
    unfold with_new_reader. simpl. rewrite Hh2.
    apply other_streams_kept; [intros ->; by apply Hne|exact Hl'| |].
    + apply lookup_insert_eq.
    + rewrite <- Hh2. exact Hfresh.
Qed.

Lemma dumpHTTPRequest_fields gz d req w req' w' :
  dumpHTTPRequest gz d req w = Ret req' w' →
  req' = req_set_Body req (req_Body req').
Proof.
  intros H. apply dumpHTTPRequest_Ret_inv in H
    as [(_ & -> & _)|[(l & o & B & e & o' & _ & _ & _ & -> & _)
                     |(l & o & B & o' & w2 & _ & _ & _ & _ & -> & _)]];
    [apply req_set_Body_same|apply req_set_Body_same|reflexivity].
Qed.

(** X4. Whenever [dumpHTTPRequest] returns, the request it leaves differs from
    the one it got in the body at most, and a new body is a stream that did
    not exist before; every stream other than the body is as it was; the log
    has kept its records and gained one or two. *)
Theorem dumpHTTPRequest_changes_only_the_body gz d req w req' w' :
  dumpHTTPRequest gz d req w = Ret req' w' →
  req' = req_set_Body req (req_Body req')
  ∧ (req_Body req' = req_Body req
     ∨ ∃ l', req_Body req' = Some l' ∧ heap w !! l' = None)
  ∧ (∀ l' o, req_Body req ≠ Some l' → heap w !! l' = Some o → heap w' !! l' = Some o)
  ∧ (∃ new, log w' = log w ++ new ∧ (1 ≤ length new ≤ 2)%nat).
Proof.
  intros H.
  split; [exact (dumpHTTPRequest_fields _ _ _ _ _ _ H)|].
  split; [|split;
           [intros l' o; exact (dumpHTTPRequest_keeps_others _ _ _ _ _ _ l' o H)|]];
    apply dumpHTTPRequest_Ret_inv in H
      as [(Hb & -> & ->)|[(l & o & B & e & o' & Hb & Hl & Hr & -> & ->)
                         |(l & o & B & o' & w2 & Hb & Hl & Hr & Hw2 & -> & ->)]].
  - by left.
  - by left.
  - right. exists (new_loc w2). split; [reflexivity|].
    pose proof (new_loc_fresh w2) as Hfresh.
    rewrite Hw2 in Hfresh. simpl in Hfresh. rewrite heap_after_decode in Hfresh.
    simpl in Hfresh. apply lookup_insert_None in Hfresh as [Hn _].
    rewrite Hw2. exact Hn.
  - eexists [_]. split; [reflexivity|]. simpl. lia.
  - eexists [_; _]. split; [simpl; by rewrite <- app_assoc|]. simpl. lia.
  - eexists [_; _]. split; [|simpl; lia].
    unfold with_new_reader. simpl. rewrite Hw2. simpl.
    rewrite log_after_decode. simpl. by rewrite <- app_assoc.
Qed.

Lemma dumpHTTPRequest_changes_only_the_body_witness :
  ∃ req' w',
    dumpHTTPRequest Demo.gzip_NewReader Demo.DumpRequestOut Demo.post_request
      (World {[ 0 := ExternReader [(Demo.ok_gz, None)] false;
                7 := BytesReader Demo.ok 1 ]} [] [])
    = Ret req' w'
    ∧ req' = req_set_Body Demo.post_request (req_Body req')
    ∧ (req_Body req' = req_Body Demo.post_request
       ∨ ∃ l', req_Body req' = Some l'
               ∧ heap (World {[ 0 := ExternReader [(Demo.ok_gz, None)] false;
                                7 := BytesReader Demo.ok 1 ]} [] []) !! l' = None)
    ∧ (∀ l' o, req_Body Demo.post_request ≠ Some l' →
         heap (World {[ 0 := ExternReader [(Demo.ok_gz, None)] false;
                        7 := BytesReader Demo.ok 1 ]} [] []) !! l' = Some o →
         heap w' !! l' = Some o)
    ∧ (∃ new,
         log w'
         = log (World {[ 0 := ExternReader [(Demo.ok_gz, None)] false;
                         7 := BytesReader Demo.ok 1 ]} [] []) ++ new
         ∧ (1 ≤ length new ≤ 2)%nat).
Proof.
  eexists _, _. split; [vm_compute; reflexivity|].
  apply (dumpHTTPRequest_changes_only_the_body Demo.gzip_NewReader Demo.DumpRequestOut
           Demo.post_request
           (World {[ 0 := ExternReader [(Demo.ok_gz, None)] false;
                     7 := BytesReader Demo.ok 1 ]} [] [])).
  vm_compute. reflexivity.
Defined.

(** X5. Whenever [dumpHTTPResponse] returns, the response it leaves differs from
    the one it got in the body at most, and a new body is a stream that did
    not exist before; every stream other than the body is as it was; the log
    has kept its records and gained exactly two. *)
Theorem dumpHTTPResponse_changes_only_the_body gz d resp w resp' w' :
  dumpHTTPResponse gz d resp w = Ret resp' w' →
  resp' = resp_set_Body resp (resp_Body resp')
  ∧ (resp_Body resp' = resp_Body resp
     ∨ ∃ l', resp_Body resp' = Some l' ∧ heap w !! l' = None)
  ∧ (∀ l' o, resp_Body resp ≠ Some l' → heap w !! l' = Some o → heap w' !! l' = Some o)
  ∧ (∃ e1 e2, log w' = log w ++ [e1; e2]).
Proof.
  intros H.
  split; [|split; [|split;
    [intros l' o; exact (dumpHTTPResponse_keeps_others _ _ _ _ _ _ l' o H)|]]];
    apply dumpHTTPResponse_Ret_inv in H
      as [(l & o & B & e & o' & Hb & Hl & Hr & -> & ->)
         |(l & o & B & o' & w2 & Hb & Hl & Hr & Hw2 & -> & ->)].
  - apply resp_set_Body_same.
  - reflexivity.
  - by left.
  - right. exists (new_loc w2). split; [reflexivity|].
    pose proof (new_loc_fresh w2) as Hfresh.
    rewrite Hw2 in Hfresh. simpl in Hfresh. rewrite heap_after_decode in Hfresh.
    simpl in Hfresh. apply lookup_insert_None in Hfresh as [Hn _].
    rewrite Hw2. exact Hn.
  - eexists _, _. simpl. by rewrite <- app_assoc.
  - eexists _, _. unfold with_new_reader. simpl. rewrite Hw2. simpl.
    rewrite log_after_decode. simpl. by rewrite <- app_assoc.
Qed.

Lemma dumpHTTPResponse_changes_only_the_body_witness :
  ∃ resp' w',
    dumpHTTPResponse Demo.gzip_NewReader Demo.DumpResponse Demo.ok_response
      (World {[ 0 := ExternReader [(Demo.ok, None)] false;
                7 := BytesReader Demo.ok 1 ]} [] [])
    = Ret resp' w'
    ∧ resp' = resp_set_Body Demo.ok_response (resp_Body resp')
    ∧ (resp_Body resp' = resp_Body Demo.ok_response
       ∨ ∃ l', resp_Body resp' = Some l'
               ∧ heap (World {[ 0 := ExternReader [(Demo.ok, None)] false;
                                7 := BytesReader Demo.ok 1 ]} [] []) !! l' = None)
    ∧ (∀ l' o, resp_Body Demo.ok_response ≠ Some l' →
         heap (World {[ 0 := ExternReader [(Demo.ok, None)] false;
                        7 := BytesReader Demo.ok 1 ]} [] []) !! l' = Some o →
         heap w' !! l' = Some o)
    ∧ (∃ e1 e2,
         log w'
         = log (World {[ 0 := ExternReader [(Demo.ok, None)] false;
                         7 := BytesReader Demo.ok 1 ]} [] []) ++ [e1; e2]).
Proof.
  eexists _, _. split; [vm_compute; reflexivity|].
  apply (dumpHTTPResponse_changes_only_the_body Demo.gzip_NewReader Demo.DumpResponse
           Demo.ok_response
           (World {[ 0 := ExternReader [(Demo.ok, None)] false;
                     7 := BytesReader Demo.ok 1 ]} [] [])).
  vm_compute. reflexivity.
Defined.

(** The body stage on a readable body, with the calls it makes. *)
Lemma dumpHTTPRequest_calls gz d req w l B w_ :
  req_Body req = Some l →
  io_ReadAll (Some l) w = Ret (Some B, None) w_ →
  ∃ l' w',
    dumpHTTPRequest gz d req w = Ret (req_set_Body req (Some l')) w'
    ∧ log w' = log w ++ [request_header_entry d req;
                         Printf fmt_request_body
                           (ArgBytes (Some (decoded_for gz
                              (Header_Get (req_Header req) "Content-Encoding") B)))]
    ∧ calls w' = calls w ++ [CallReadAll l; CallClose l]
                 ++ (if String.eqb (Header_Get (req_Header req) "Content-Encoding") "gzip"
                     then [CallGzipNewReader B] else []).
Proof.
  intros Hb H. apply io_ReadAll_Ret in H as (l0 & o & o' & Heq & Hl & Hr).
  injection Heq as <-.
  rewrite (dumpHTTPRequest_run gz d req w l o B None o' Hb Hl Hr). cbv zeta.
  eexists _, _. split; [reflexivity|]. split.
  - simpl. rewrite log_after_decode. simpl. by rewrite <- app_assoc.
  - simpl. rewrite calls_after_decode. simpl. by rewrite <- app_assoc.
Qed.

Lemma dumpHTTPResponse_calls gz d resp w l B w_ :
  resp_Body resp = Some l →
  io_ReadAll (Some l) w = Ret (Some B, None) w_ →
  ∃ l' w',
    dumpHTTPResponse gz d resp w = Ret (resp_set_Body resp (Some l')) w'
    ∧ log w' = log w ++ [response_header_entry d resp;
                         Printf fmt_response_body
                           (ArgBytes (Some (decoded_for gz
                              (Header_Get (resp_Header resp) "Content-Encoding") B)))]
    ∧ calls w' = calls w ++ [CallReadAll l; CallClose l]
                 ++ (if String.eqb (Header_Get (resp_Header resp) "Content-Encoding") "gzip"
                     then [CallGzipNewReader B] else []).
Proof.
  intros Hb H. apply io_ReadAll_Ret in H as (l0 & o & o' & Heq & Hl & Hr).
  injection Heq as <-.
  rewrite (dumpHTTPResponse_run gz d resp w l o B None o' Hb Hl Hr). cbv zeta.
  eexists _, _. split; [reflexivity|]. split.
  - simpl. rewrite log_after_decode. simpl. by rewrite <- app_assoc.
  - simpl. rewrite calls_after_decode. simpl. by rewrite <- app_assoc.
Qed.

(** What the declared encoding of a message is, by its header map. *)
Lemma Header_Get_missing (h : gmap string (list string)) key :
  h !! key = None ∨ h !! key = Some [] → Header_Get h key = "".
Proof. unfold Header_Get. intros [->| ->]; reflexivity. Qed.

Lemma Header_Get_first (h : gmap string (list string)) key v vs :
  h !! key = Some (v :: vs) → Header_Get h key = v.
Proof. unfold Header_Get. intros ->. reflexivity. Qed.

(** X6. The declared encoding of a request is the first value of its
    [Content-Encoding] header.  A request with a readable body always gets
    one body record after the header record; without the header, or with an
    empty list of values, or with a first value other than [gzip] (whatever
    follows it), that record shows the raw bytes and the decompressor is not
    called; with [gzip] as first value the decompressor is called on the raw
    bytes. *)
Theorem request_encoding_is_first_header_value gz d req w l B w_ :
  req_Body req = Some l →
  io_ReadAll (Some l) w = Ret (Some B, None) w_ →
  ∃ l' w' D,
    dumpHTTPRequest gz d req w = Ret (req_set_Body req (Some l')) w'
    ∧ log w' = log w ++ [request_header_entry d req;
                         Printf fmt_request_body (ArgBytes (Some D))]
    ∧ (req_Header req !! "Content-Encoding" = None
       ∨ req_Header req !! "Content-Encoding" = Some [] →
       D = B ∧ calls w' = calls w ++ [CallReadAll l; CallClose l])
    ∧ (∀ v vs, req_Header req !! "Content-Encoding" = Some (v :: vs) →
         v ≠ "gzip" →
         D = B ∧ calls w' = calls w ++ [CallReadAll l; CallClose l])
    ∧ (∀ vs, req_Header req !! "Content-Encoding" = Some ("gzip" :: vs) →
         calls w' = calls w ++ [CallReadAll l; CallClose l; CallGzipNewReader B]).
Proof.
  intros Hb H.
  destruct (dumpHTTPRequest_calls gz d req w l B w_ Hb H)
    as (l' & w' & Hrun & Hlog & Hcalls).
  exists l', w', (decoded_for gz (Header_Get (req_Header req) "Content-Encoding") B).
  split; [exact Hrun|]. split; [exact Hlog|].
  unfold decoded_for. split; [|split].
  - intros Hm. rewrite (Header_Get_missing _ _ Hm) in *. simpl in *.
    split; [reflexivity|exact Hcalls].
  - intros v vs Hv Hne. rewrite (Header_Get_first _ _ _ _ Hv) in *.
    apply String.eqb_neq in Hne. rewrite Hne in *.
    split; [reflexivity|exact Hcalls].
  - intros vs Hv. rewrite (Header_Get_first _ _ _ _ Hv) in Hcalls. exact Hcalls.
Qed.

Lemma request_encoding_is_first_header_value_witness :
  ∃ l' w',
    dumpHTTPRequest Demo.gzip_NewReader Demo.DumpRequestOut Demo.br_gzip_request
      (Demo.with_body [(Demo.ok_gz, None)])
    = Ret (req_set_Body Demo.br_gzip_request (Some l')) w'
    ∧ log w' = log (Demo.with_body [(Demo.ok_gz, None)])
               ++ [request_header_entry Demo.DumpRequestOut Demo.br_gzip_request;
                   Printf fmt_request_body (ArgBytes (Some Demo.ok_gz))]
    ∧ calls w' = calls (Demo.with_body [(Demo.ok_gz, None)])
                 ++ [CallReadAll 0; CallClose 0].
Proof.
  edestruct (request_encoding_is_first_header_value Demo.gzip_NewReader
               Demo.DumpRequestOut Demo.br_gzip_request
               (Demo.with_body [(Demo.ok_gz, None)]) 0 Demo.ok_gz)
    as (l' & w' & D & Hrun & Hlog & _ & Hother & _);
    [reflexivity|vm_compute; reflexivity|].
  destruct (Hother "br" ["gzip"]) as [-> Hcalls];
    [vm_compute; reflexivity|discriminate|].
  exists l', w'. split; [exact Hrun|]. split; [exact Hlog|exact Hcalls].
Defined.

(** X7. The same for a response and its [Content-Encoding] header. *)
Theorem response_encoding_is_first_header_value gz d resp w l B w_ :
  resp_Body resp = Some l →
  io_ReadAll (Some l) w = Ret (Some B, None) w_ →
  ∃ l' w' D,
    dumpHTTPResponse gz d resp w = Ret (resp_set_Body resp (Some l')) w'
    ∧ log w' = log w ++ [response_header_entry d resp;
                         Printf fmt_response_body (ArgBytes (Some D))]
    ∧ (resp_Header resp !! "Content-Encoding" = None
       ∨ resp_Header resp !! "Content-Encoding" = Some [] →
       D = B ∧ calls w' = calls w ++ [CallReadAll l; CallClose l])
    ∧ (∀ v vs, resp_Header resp !! "Content-Encoding" = Some (v :: vs) →
         v ≠ "gzip" →
         D = B ∧ calls w' = calls w ++ [CallReadAll l; CallClose l])
    ∧ (∀ vs, resp_Header resp !! "Content-Encoding" = Some ("gzip" :: vs) →
         calls w' = calls w ++ [CallReadAll l; CallClose l; CallGzipNewReader B]).
Proof.
  intros Hb H.
  destruct (dumpHTTPResponse_calls gz d resp w l B w_ Hb H)
    as (l' & w' & Hrun & Hlog & Hcalls).
  exists l', w', (decoded_for gz (Header_Get (resp_Header resp) "Content-Encoding") B).
  split; [exact Hrun|]. split; [exact Hlog|].
  unfold decoded_for. split; [|split].
  - intros Hm. rewrite (Header_Get_missing _ _ Hm) in *. simpl in *.
    split; [reflexivity|exact Hcalls].
  - intros v vs Hv Hne. rewrite (Header_Get_first _ _ _ _ Hv) in *.
    apply String.eqb_neq in Hne. rewrite Hne in *.
    split; [reflexivity|exact Hcalls].
  - intros vs Hv. rewrite (Header_Get_first _ _ _ _ Hv) in Hcalls. exact Hcalls.
Qed.

Lemma response_encoding_is_first_header_value_witness :
  ∃ l' w',
    dumpHTTPResponse Demo.gzip_NewReader Demo.DumpResponse Demo.ok_response
      (Demo.with_body [])
    = Ret (resp_set_Body Demo.ok_response (Some l')) w'
    ∧ log w' = log (Demo.with_body [])
               ++ [response_header_entry Demo.DumpResponse Demo.ok_response;
                   Printf fmt_response_body (ArgBytes (Some []))]
    ∧ calls w' = calls (Demo.with_body []) ++ [CallReadAll 0; CallClose 0].
Proof.
  edestruct (response_encoding_is_first_header_value Demo.gzip_NewReader
               Demo.DumpResponse Demo.ok_response (Demo.with_body []) 0 [])
    as (l' & w' & D & Hrun & Hlog & Hnone & _ & _);
    [reflexivity|vm_compute; reflexivity|].
  destruct Hnone as [-> Hcalls]; [left; vm_compute; reflexivity|].
  exists l', w'. split; [exact Hrun|]. split; [exact Hlog|exact Hcalls].
Defined.

(** X8. A gzip body is shown decoded and passed on compressed: when the raw
    bytes [B] of a message declared as gzip decompress to [D], the body
    record of the dump shows [D], and the [Body] field of the message the
    dump leaves is a new stream that reads as [B].  For requests and for
    responses. *)
Theorem gzip_body_logged_decoded_kept_raw gz B sc D rest :
  gz B = Ok sc →
  readAll_script [] sc = (D, None, rest) →
  (∀ d req w l w_ vs,
     req_Body req = Some l →
     io_ReadAll (Some l) w = Ret (Some B, None) w_ →
     req_Header req !! "Content-Encoding" = Some ("gzip" :: vs) →
     ∃ req' l' w' w'',
       dumpHTTPRequest gz d req w = Ret req' w'
       ∧ req_Body req' = Some l'
       ∧ heap w !! l' = None
       ∧ log w' = log w ++ [request_header_entry d req;
                            Printf fmt_request_body (ArgBytes (Some D))]
       ∧ io_ReadAll (req_Body req') w' = Ret (Some B, None) w'')
  ∧ (∀ d resp w l w_ vs,
       resp_Body resp = Some l →
       io_ReadAll (Some l) w = Ret (Some B, None) w_ →
       resp_Header resp !! "Content-Encoding" = Some ("gzip" :: vs) →
       ∃ resp' l' w' w'',
         dumpHTTPResponse gz d resp w = Ret resp' w'
         ∧ resp_Body resp' = Some l'
         ∧ heap w !! l' = None
         ∧ log w' = log w ++ [response_header_entry d resp;
                              Printf fmt_response_body (ArgBytes (Some D))]
         ∧ io_ReadAll (resp_Body resp') w' = Ret (Some B, None) w'').
Proof.
  intros Hgz Hsc.
  assert (HD : decoded_for gz "gzip" B = D)
    by (unfold decoded_for, gunzip; simpl; rewrite Hgz, Hsc; reflexivity).
  split.
  - intros d req w l w_ vs Hb H Hv.
    destruct (dumpHTTPRequest_restores gz d req w l B w_ Hb H)
      as (l' & w' & Hrun & Hlog & _ & Hfresh & _ & w'' & Hread).
    rewrite (Header_Get_first _ _ _ _ Hv), HD in Hlog.
    exists (req_set_Body req (Some l')), l', w', w''.
    split; [exact Hrun|]. split; [reflexivity|].
    split; [exact Hfresh|]. split; [exact Hlog|exact Hread].
  - intros d resp w l w_ vs Hb H Hv.
    destruct (dumpHTTPResponse_restores gz d resp w l B w_ Hb H)
      as (l' & w' & Hrun & Hlog & _ & Hfresh & _ & w'' & Hread).
    rewrite (Header_Get_first _ _ _ _ Hv), HD in Hlog.
    exists (resp_set_Body resp (Some l')), l', w', w''.
    split; [exact Hrun|]. split; [reflexivity|].
    split; [exact Hfresh|]. split; [exact Hlog|exact Hread].
Qed.

Lemma gzip_body_logged_decoded_kept_raw_witness :
  (∃ req' l' w' w'',
     dumpHTTPRequest Demo.gzip_NewReader Demo.DumpRequestOut Demo.post_request
       (Demo.with_body [(Demo.ok_gz, None)])
     = Ret req' w'
     ∧ req_Body req' = Some l'
     ∧ heap (Demo.with_body [(Demo.ok_gz, None)]) !! l' = None
     ∧ log w' = log (Demo.with_body [(Demo.ok_gz, None)])
                ++ [request_header_entry Demo.DumpRequestOut Demo.post_request;
                    Printf fmt_request_body (ArgBytes (Some Demo.ok))]
     ∧ io_ReadAll (req_Body req') w' = Ret (Some Demo.ok_gz, None) w'')
  ∧ (∃ resp' l' w' w'',
       dumpHTTPResponse Demo.gzip_NewReader Demo.DumpResponse Demo.gzip_response
         (Demo.with_body [(Demo.ok_gz, None)])
       = Ret resp' w'
       ∧ resp_Body resp' = Some l'
       ∧ heap (Demo.with_body [(Demo.ok_gz, None)]) !! l' = None
       ∧ log w' = log (Demo.with_body [(Demo.ok_gz, None)])
                  ++ [response_header_entry Demo.DumpResponse Demo.gzip_response;
                      Printf fmt_response_body (ArgBytes (Some Demo.ok))]
       ∧ io_ReadAll (resp_Body resp') w' = Ret (Some Demo.ok_gz, None) w'').
Proof.
  edestruct (gzip_body_logged_decoded_kept_raw Demo.gzip_NewReader Demo.ok_gz
               [(Demo.ok, Some EOF)] Demo.ok []) as [Hreq Hresp];
    [vm_compute; reflexivity|vm_compute; reflexivity|].
  split.
  - eapply (Hreq Demo.DumpRequestOut Demo.post_request
              (Demo.with_body [(Demo.ok_gz, None)]) 0 _ []);
      vm_compute; reflexivity.
  - eapply (Hresp Demo.DumpResponse Demo.gzip_response
              (Demo.with_body [(Demo.ok_gz, None)]) 0 _ []);
      vm_compute; reflexivity.
Defined.

(** X9. [RoundTrip] sends what the dump leaves: for a request whose body is nil
    or a stream, whatever the dump met (a header that does not render, a
    body whose read fails, data that does not decompress), the result of
    [RoundTrip], response or error, is the result of the wrapped round
    tripper on the dumped request, which differs from the request given in
    the body at most. *)
Theorem RoundTrip_sends_the_dumped_request gz d t req w :
  req_Body req = None ∨ live w (req_Body req) →
  ∃ req' w',
    dumpHTTPRequest gz d req w = Ret req' w'
    ∧ RoundTrip gz d t req w = rt t req' w'
    ∧ req' = req_set_Body req (req_Body req').
Proof.
  intros Hb.
  destruct (dumpHTTPRequest_returns gz d req w Hb) as (req' & w' & Hrun).
  exists req', w'. split; [exact Hrun|]. split.
  - unfold RoundTrip. exact (bind_Ret _ _ _ _ _ Hrun).
  - exact (dumpHTTPRequest_fields _ _ _ _ _ _ Hrun).
Qed.

Lemma RoundTrip_sends_the_dumped_request_witness :
  ∃ req' w',
    dumpHTTPRequest Demo.gzip_NewReader Demo.DumpRequestOut Demo.malformed_post_request
      (Demo.with_body [(Demo.ok_gz_damaged, None)]) = Ret req' w'
    ∧ RoundTrip Demo.gzip_NewReader Demo.DumpRequestOut
        (mkLoggingTransport Demo.unreachable) Demo.malformed_post_request
        (Demo.with_body [(Demo.ok_gz_damaged, None)])
      = Ret (None, Some (ErrNew "dial tcp: connection refused")) w'
    ∧ req' = req_set_Body Demo.malformed_post_request (req_Body req').
Proof.
  apply (RoundTrip_sends_the_dumped_request Demo.gzip_NewReader Demo.DumpRequestOut
           (mkLoggingTransport Demo.unreachable) Demo.malformed_post_request
           (Demo.with_body [(Demo.ok_gz_damaged, None)])).
  right. exists 0. split; [reflexivity|]. eexists. vm_compute. reflexivity.
Defined.

(** X10. What the wrapped round tripper finds as body.  A request without
    body is handed over as it is, with the store untouched; for a body that
    reads as [B], the [Body] field of the request handed over is a stream,
    new to the store, that reads as [B]; after a failed read the request is
    still sent, with the body it came with. *)
Theorem RoundTrip_body_handed_over gz d t req w :
  (req_Body req = None →
   RoundTrip gz d t req w
   = rt t req (World (heap w) (log w ++ [request_header_entry d req]) (calls w)))
  ∧ (∀ l B w_,
       req_Body req = Some l →
       io_ReadAll (Some l) w = Ret (Some B, None) w_ →
       ∃ req' l' w' w'',
         RoundTrip gz d t req w = rt t req' w'
         ∧ req' = req_set_Body req (Some l')
         ∧ req_Body req' = Some l'
         ∧ heap w !! l' = None
         ∧ heap w' !! l' = Some (BytesReader B 0)
         ∧ io_ReadAll (req_Body req') w' = Ret (Some B, None) w'')
  ∧ (∀ l B e w_,
       req_Body req = Some l →
       io_ReadAll (Some l) w = Ret (Some B, Some e) w_ →
       ∃ w',
         RoundTrip gz d t req w = rt t req w'
         ∧ log w' = log w ++ [request_header_entry d req;
                              Printf fmt_request_body_error (ArgErr e)]).
Proof.
  split; [|split].
  - intros Hb. unfold RoundTrip.
    exact (bind_Ret _ _ _ _ _ (dumpHTTPRequest_nil gz d req w Hb)).
  - intros l B w_ Hb H.
    destruct (dumpHTTPRequest_restores gz d req w l B w_ Hb H)
      as (l' & w' & Hrun & _ & _ & Hfresh & Hnew & w'' & Hread).
    exists (req_set_Body req (Some l')), l', w', w''.
    split; [unfold RoundTrip; exact (bind_Ret _ _ _ _ _ Hrun)|].
    split; [reflexivity|]. split; [reflexivity|].
    split; [exact Hfresh|]. split; [exact Hnew|exact Hread].
  - intros l B e w_ Hb H.
    apply io_ReadAll_Ret in H as (l0 & o & o' & Heq & Hl & Hr).
    injection Heq as <-.
    pose proof (dumpHTTPRequest_run gz d req w l o B (Some e) o' Hb Hl Hr) as Hrun.
    cbv zeta in Hrun. eexists. split.
    + unfold RoundTrip. exact (bind_Ret _ _ _ _ _ Hrun).
    + simpl. by rewrite <- app_assoc.
Qed.

Lemma RoundTrip_body_handed_over_witness :
  (RoundTrip Demo.gzip_NewReader Demo.DumpRequestOut
     (mkLoggingTransport Demo.upstream) Demo.health_request Demo.w0
   = Demo.upstream Demo.health_request
       (World (heap Demo.w0)
          (log Demo.w0 ++ [request_header_entry Demo.DumpRequestOut Demo.health_request])
          (calls Demo.w0)))
  ∧ (∃ req' l' w' w'',
       RoundTrip Demo.gzip_NewReader Demo.DumpRequestOut
         (mkLoggingTransport Demo.upstream) Demo.post_request
         (Demo.with_body [(Demo.ok_gz, None)])
       = Demo.upstream req' w'
       ∧ req' = req_set_Body Demo.post_request (Some l')
       ∧ req_Body req' = Some l'
       ∧ heap (Demo.with_body [(Demo.ok_gz, None)]) !! l' = None
       ∧ heap w' !! l' = Some (BytesReader Demo.ok_gz 0)
       ∧ io_ReadAll (req_Body req') w' = Ret (Some Demo.ok_gz, None) w'')
  ∧ (∃ w',
       RoundTrip Demo.gzip_NewReader Demo.DumpRequestOut
         (mkLoggingTransport Demo.upstream) Demo.post_request
         (Demo.with_body [(Demo.ok, None); ([], Some (ErrNew "connection reset"))])
       = Demo.upstream Demo.post_request w'
       ∧ log w'
         = log (Demo.with_body [(Demo.ok, None); ([], Some (ErrNew "connection reset"))])
           ++ [request_header_entry Demo.DumpRequestOut Demo.post_request;
               Printf fmt_request_body_error (ArgErr (ErrNew "connection reset"))]).
Proof.
  split; [|split].
  - apply (RoundTrip_body_handed_over Demo.gzip_NewReader Demo.DumpRequestOut
             (mkLoggingTransport Demo.upstream) Demo.health_request Demo.w0).
    reflexivity.
  - eapply (RoundTrip_body_handed_over Demo.gzip_NewReader Demo.DumpRequestOut
              (mkLoggingTransport Demo.upstream) Demo.post_request
              (Demo.with_body [(Demo.ok_gz, None)])); [reflexivity|].
    vm_compute. reflexivity.
  - eapply (RoundTrip_body_handed_over Demo.gzip_NewReader Demo.DumpRequestOut
              (mkLoggingTransport Demo.upstream) Demo.post_request
              (Demo.with_body [(Demo.ok, None); ([], Some (ErrNew "connection reset"))]));
      [reflexivity|].
    vm_compute. reflexivity.
Defined.

(** A full read returns what the state of the stream decides. *)
Lemma io_ReadAll_same_object w w1 l o B e w_ :
  heap w !! l = Some o →
  heap w1 !! l = Some o →
  io_ReadAll (Some l) w = Ret (Some B, e) w_ →
  ∃ w1_, io_ReadAll (Some l) w1 = Ret (Some B, e) w1_.
Proof.
  unfold io_ReadAll. intros -> ->.
  destruct (readAll_object o) as [[b e'] o'].
  intros H. injection H as -> -> _. eauto.
Qed.

Lemma io_ReadAll_kept w w1 l B e w_ :
  (∀ o, heap w !! l = Some o → heap w1 !! l = Some o) →
  io_ReadAll (Some l) w = Ret (Some B, e) w_ →
  ∃ w1_, io_ReadAll (Some l) w1 = Ret (Some B, e) w1_.
Proof.
  intros Hkeep H.
  destruct (io_ReadAll_Ret _ _ _ _ _ H) as (l0 & o & o' & Heq & Hl & _).
  injection Heq as <-.
  exact (io_ReadAll_same_object w w1 l o B e w_ Hl (Hkeep o Hl) H).
Qed.

(** A dump removes no stream from the store. *)
Lemma dumpHTTPRequest_no_stream_lost gz d req w req' w' l' :
  dumpHTTPRequest gz d req w = Ret req' w' →
  heap w' !! l' = None →
  heap w !! l' = None.
Proof.
  intros H Hnone. apply dumpHTTPRequest_Ret_inv in H
    as [(_ & _ & ->)|[(l & o & B & e & o' & _ & _ & _ & _ & ->)
                     |(l & o & B & o' & w2 & _ & _ & _ & Hw2 & _ & ->)]].
  - exact Hnone.
  - simpl in Hnone. apply lookup_insert_None in Hnone as [Hn _]. exact Hn.
  - unfold with_new_reader in Hnone. simpl in Hnone.
    apply lookup_insert_None in Hnone as [Hn _].
    rewrite Hw2 in Hn. simpl in Hn. rewrite heap_after_decode in Hn. simpl in Hn.
    apply lookup_insert_None in Hn as [Hn _]. exact Hn.
Qed.

(** X11. Dumping a request and then a response, as in one exchange, keeps the
    two bodies apart: when the two messages hold different streams that
    read as [B1] and [B2], then after both dumps the [Body] field of the
    request is a new stream that reads as [B1], and the [Body] field of the
    response another new stream that reads as [B2]. *)
Theorem request_and_response_bodies_kept_apart gz dq dr req resp w l1 l2 B1 B2 w_1 w_2 :
  req_Body req = Some l1 →
  resp_Body resp = Some l2 →
  l1 ≠ l2 →
  io_ReadAll (Some l1) w = Ret (Some B1, None) w_1 →
  io_ReadAll (Some l2) w = Ret (Some B2, None) w_2 →
  ∃ req' resp' l1' l2' w1 w2 wa wb,
    dumpHTTPRequest gz dq req w = Ret req' w1
    ∧ dumpHTTPResponse gz dr resp w1 = Ret resp' w2
    ∧ req_Body req' = Some l1'
    ∧ resp_Body resp' = Some l2'
    ∧ heap w !! l1' = None
    ∧ heap w !! l2' = None
    ∧ l1' ≠ l2'
    ∧ io_ReadAll (req_Body req') w2 = Ret (Some B1, None) wa
    ∧ io_ReadAll (resp_Body resp') w2 = Ret (Some B2, None) wb.
Proof.
  intros Hb1 Hb2 Hne H1 H2.
  destruct (dumpHTTPRequest_restores gz dq req w l1 B1 w_1 Hb1 H1)
    as (l1' & w1 & Hrun1 & _ & _ & Hfresh1 & Hnew1 & _).
  destruct (io_ReadAll_kept w w1 l2 B2 None w_2) as (w1_ & H2'); [|exact H2|].
  { intros o Hl. apply (dumpHTTPRequest_keeps_others _ _ _ _ _ _ l2 o Hrun1); [|exact Hl].
    rewrite Hb1. intros Heq. injection Heq as Heq. by apply Hne. }
  destruct (dumpHTTPResponse_restores gz dr resp w1 l2 B2 w1_ Hb2 H2')
    as (l2' & w2 & Hrun2 & _ & _ & Hfresh2 & _ & wb & Hread2).
  assert (Hkept : heap w2 !! l1' = Some (BytesReader B1 0)).
  { apply (dumpHTTPResponse_keeps_others _ _ _ _ _ _ l1' _ Hrun2); [|exact Hnew1].
    rewrite Hb2. intros Heq. injection Heq as <-.
    destruct (io_ReadAll_Ret _ _ _ _ _ H2) as (l0 & o & o' & Heq & Hl & _).
    injection Heq as <-. rewrite Hfresh1 in Hl. discriminate. }
  exists (req_set_Body req (Some l1')), (resp_set_Body resp (Some l2')), l1', l2', w1, w2.
  eexists _, wb.
  split; [exact Hrun1|]. split; [exact Hrun2|].
  split; [reflexivity|]. split; [reflexivity|]. split; [exact Hfresh1|].
  split; [|split; [|split]].
  - exact (dumpHTTPRequest_no_stream_lost _ _ _ _ _ _ l2' Hrun1 Hfresh2).
  - intros <-. rewrite Hnew1 in Hfresh2. discriminate.
  - exact (io_ReadAll_BytesReader w2 l1' B1 Hkept).
  - exact Hread2.
Qed.

Lemma request_and_response_bodies_kept_apart_witness :
  ∃ req' resp' l1' l2' w1 w2 wa wb,
    dumpHTTPRequest Demo.gzip_NewReader Demo.DumpRequestOut Demo.post_request
      (World {[ 0 := ExternReader [(Demo.ok_gz, None)] false;
                5 := ExternReader [(Demo.ok, None)] false ]} [] [])
    = Ret req' w1
    ∧ dumpHTTPResponse Demo.gzip_NewReader Demo.DumpResponse
        (mkResponse "200 OK" 200 ∅ 2 (Some 5)) w1
      = Ret resp' w2
    ∧ req_Body req' = Some l1'
    ∧ resp_Body resp' = Some l2'
    ∧ heap (World {[ 0 := ExternReader [(Demo.ok_gz, None)] false;
                     5 := ExternReader [(Demo.ok, None)] false ]} [] []) !! l1' = None
    ∧ heap (World {[ 0 := ExternReader [(Demo.ok_gz, None)] false;
                     5 := ExternReader [(Demo.ok, None)] false ]} [] []) !! l2' = None
    ∧ l1' ≠ l2'
    ∧ io_ReadAll (req_Body req') w2 = Ret (Some Demo.ok_gz, None) wa
    ∧ io_ReadAll (resp_Body resp') w2 = Ret (Some Demo.ok, None) wb.
Proof.
  eapply (request_and_response_bodies_kept_apart Demo.gzip_NewReader
            Demo.DumpRequestOut Demo.DumpResponse Demo.post_request
            (mkResponse "200 OK" 200 ∅ 2 (Some 5))
            (World {[ 0 := ExternReader [(Demo.ok_gz, None)] false;
                      5 := ExternReader [(Demo.ok, None)] false ]} [] [])
            0 5 Demo.ok_gz Demo.ok).
  - reflexivity.
  - reflexivity.
  - discriminate.
  - vm_compute. reflexivity.
  - vm_compute. reflexivity.
Defined.

(** X12. Two requests dumped one after the other keep their own bodies: the
    [Body] field of each ends as a new stream of its own that reads as the
    bytes its body had. *)
Theorem two_request_bodies_kept_apart gz d req1 req2 w l1 l2 B1 B2 w_1 w_2 :
  req_Body req1 = Some l1 →
  req_Body req2 = Some l2 →
  l1 ≠ l2 →
  io_ReadAll (Some l1) w = Ret (Some B1, None) w_1 →
  io_ReadAll (Some l2) w = Ret (Some B2, None) w_2 →
  ∃ req1' req2' l1' l2' w1 w2 wa wb,
    dumpHTTPRequest gz d req1 w = Ret req1' w1
    ∧ dumpHTTPRequest gz d req2 w1 = Ret req2' w2
    ∧ req_Body req1' = Some l1'
    ∧ req_Body req2' = Some l2'
    ∧ heap w !! l1' = None
    ∧ heap w !! l2' = None
    ∧ l1' ≠ l2'
    ∧ io_ReadAll (req_Body req1') w2 = Ret (Some B1, None) wa
    ∧ io_ReadAll (req_Body req2') w2 = Ret (Some B2, None) wb.
Proof.
  intros Hb1 Hb2 Hne H1 H2.
  destruct (dumpHTTPRequest_restores gz d req1 w l1 B1 w_1 Hb1 H1)
    as (l1' & w1 & Hrun1 & _ & _ & Hfresh1 & Hnew1 & _).
  destruct (io_ReadAll_kept w w1 l2 B2 None w_2) as (w1_ & H2'); [|exact H2|].
  { intros o Hl. apply (dumpHTTPRequest_keeps_others _ _ _ _ _ _ l2 o Hrun1); [|exact Hl].
    rewrite Hb1. intros Heq. injection Heq as Heq. by apply Hne. }
  destruct (dumpHTTPRequest_restores gz d req2 w1 l2 B2 w1_ Hb2 H2')
    as (l2' & w2 & Hrun2 & _ & _ & Hfresh2 & _ & wb & Hread2).
  assert (Hkept : heap w2 !! l1' = Some (BytesReader B1 0)).
  { apply (dumpHTTPRequest_keeps_others _ _ _ _ _ _ l1' _ Hrun2); [|exact Hnew1].
    rewrite Hb2. intros Heq. injection Heq as <-.
    destruct (io_ReadAll_Ret _ _ _ _ _ H2) as (l0 & o & o' & Heq & Hl & _).
    injection Heq as <-. rewrite Hfresh1 in Hl. discriminate. }
  exists (req_set_Body req1 (Some l1')), (req_set_Body req2 (Some l2')), l1', l2', w1, w2.
  eexists _, wb.
  split; [exact Hrun1|]. split; [exact Hrun2|].
  split; [reflexivity|]. split; [reflexivity|]. split; [exact Hfresh1|].
  split; [|split; [|split]].
  - exact (dumpHTTPRequest_no_stream_lost _ _ _ _ _ _ l2' Hrun1 Hfresh2).
  - intros <-. rewrite Hnew1 in Hfresh2. discriminate.
  - exact (io_ReadAll_BytesReader w2 l1' B1 Hkept).
  - exact Hread2.
Qed.

Lemma two_request_bodies_kept_apart_witness :
  ∃ req1' req2' l1' l2' w1 w2 wa wb,
    dumpHTTPRequest Demo.gzip_NewReader Demo.DumpRequestOut Demo.post_request
      (World {[ 0 := ExternReader [(Demo.ok_gz, None)] false;
                5 := ExternReader [(Demo.plain_text, None)] false ]} [] [])
    = Ret req1' w1
    ∧ dumpHTTPRequest Demo.gzip_NewReader Demo.DumpRequestOut
        (mkRequest "PUT" "/notes" "localhost:8181" ∅ 12 (Some 5)) w1
      = Ret req2' w2
    ∧ req_Body req1' = Some l1'
    ∧ req_Body req2' = Some l2'
    ∧ heap (World {[ 0 := ExternReader [(Demo.ok_gz, None)] false;
                     5 := ExternReader [(Demo.plain_text, None)] false ]} [] [])
      !! l1' = None
    ∧ heap (World {[ 0 := ExternReader [(Demo.ok_gz, None)] false;
                     5 := ExternReader [(Demo.plain_text, None)] false ]} [] [])
      !! l2' = None
    ∧ l1' ≠ l2'
    ∧ io_ReadAll (req_Body req1') w2 = Ret (Some Demo.ok_gz, None) wa
    ∧ io_ReadAll (req_Body req2') w2 = Ret (Some Demo.plain_text, None) wb.
Proof.
  eapply (two_request_bodies_kept_apart Demo.gzip_NewReader Demo.DumpRequestOut
            Demo.post_request
            (mkRequest "PUT" "/notes" "localhost:8181" ∅ 12 (Some 5))
            (World {[ 0 := ExternReader [(Demo.ok_gz, None)] false;
                      5 := ExternReader [(Demo.plain_text, None)] false ]} [] [])
            0 5 Demo.ok_gz Demo.plain_text).
  - reflexivity.
  - reflexivity.
  - discriminate.
  - vm_compute. reflexivity.
  - vm_compute. reflexivity.
Defined.

Lemma req_set_Body_twice req a b :
  req_set_Body (req_set_Body req a) b = req_set_Body req b.
Proof. reflexivity. Qed.

(** X13. A dump can be repeated: dumping the request that a dump has left reads
    the restored stream, writes the same body record again and leaves one
    more new stream that reads as the same bytes. *)
Theorem dumpHTTPRequest_twice gz d req w l B w_ :
  req_Body req = Some l →
  io_ReadAll (Some l) w = Ret (Some B, None) w_ →
  ∃ l1 w1 l2 w2 w3 D,
    dumpHTTPRequest gz d req w = Ret (req_set_Body req (Some l1)) w1
    ∧ dumpHTTPRequest gz d (req_set_Body req (Some l1)) w1
      = Ret (req_set_Body req (Some l2)) w2
    ∧ log w1 = log w ++ [request_header_entry d req;
                         Printf fmt_request_body (ArgBytes (Some D))]
    ∧ log w2 = log w1 ++ [request_header_entry d (req_set_Body req (Some l1));
                          Printf fmt_request_body (ArgBytes (Some D))]
    ∧ l1 ≠ l ∧ l2 ≠ l1
    ∧ CallReadAll l1 ∈ calls w2
    ∧ io_ReadAll (Some l2) w2 = Ret (Some B, None) w3.
Proof.
  intros Hb H.
  destruct (dumpHTTPRequest_restores gz d req w l B w_ Hb H)
    as (l1 & w1 & Hrun1 & Hlog1 & _ & Hfresh1 & Hnew1 & w1_ & Hread1).
  destruct (dumpHTTPRequest_restores gz d (req_set_Body req (Some l1)) w1 l1 B w1_
              eq_refl Hread1)
    as (l2 & w2 & Hrun2 & Hlog2 & Hcall2 & Hfresh2 & _ & w3 & Hread2).
  rewrite req_set_Body_twice in Hrun2. simpl in Hlog2.
  exists l1, w1, l2, w2, w3. eexists.
  split; [exact Hrun1|]. split; [exact Hrun2|]. split; [exact Hlog1|].
  split; [exact Hlog2|]. split; [|split; [|split; assumption]].
  - intros ->. destruct (io_ReadAll_Ret _ _ _ _ _ H) as (l0 & o & o' & Heq & Hl & _).
    injection Heq as <-. rewrite Hfresh1 in Hl. discriminate.
  - intros ->. rewrite Hnew1 in Hfresh2. discriminate.
Qed.

Lemma dumpHTTPRequest_twice_witness :
  ∃ l1 w1 l2 w2 w3 D,
    dumpHTTPRequest Demo.gzip_NewReader Demo.DumpRequestOut Demo.post_request
      (Demo.with_body [(Demo.ok_gz, None)])
    = Ret (req_set_Body Demo.post_request (Some l1)) w1
    ∧ dumpHTTPRequest Demo.gzip_NewReader Demo.DumpRequestOut
        (req_set_Body Demo.post_request (Some l1)) w1
      = Ret (req_set_Body Demo.post_request (Some l2)) w2
    ∧ log w1 = log (Demo.with_body [(Demo.ok_gz, None)])
               ++ [request_header_entry Demo.DumpRequestOut Demo.post_request;
                   Printf fmt_request_body (ArgBytes (Some D))]
    ∧ log w2 = log w1
               ++ [request_header_entry Demo.DumpRequestOut
                     (req_set_Body Demo.post_request (Some l1));
                   Printf fmt_request_body (ArgBytes (Some D))]
    ∧ l1 ≠ 0 ∧ l2 ≠ l1
    ∧ CallReadAll l1 ∈ calls w2
    ∧ io_ReadAll (Some l2) w2 = Ret (Some Demo.ok_gz, None) w3.
Proof.
  eapply (dumpHTTPRequest_twice Demo.gzip_NewReader Demo.DumpRequestOut
            Demo.post_request (Demo.with_body [(Demo.ok_gz, None)]) 0 Demo.ok_gz).
  - reflexivity.
  - vm_compute. reflexivity.
Defined.

(** X14. The response hook reports no error and passes the response on with
    its status, headers and content length as they were: whenever it
    returns, its error is nil, the response differs from the one given in
    the body at most, and the log has gained two records. *)
Theorem ModifyResponse_reports_no_error gz d resp w resp' e w' :
  ModifyResponse gz d resp w = Ret (resp', e) w' →
  e = None
  ∧ dumpHTTPResponse gz d resp w = Ret resp' w'
  ∧ resp_Status resp' = resp_Status resp
  ∧ resp_StatusCode resp' = resp_StatusCode resp
  ∧ resp_Header resp' = resp_Header resp
  ∧ resp_ContentLength resp' = resp_ContentLength resp
  ∧ ∃ e1 e2, log w' = log w ++ [e1; e2].
Proof.
  unfold ModifyResponse. intros H.
  destruct (dumpHTTPResponse gz d resp w) as [r w1|msg w1] eqn:Hrun.
  2: { rewrite (bind_Panic _ _ _ _ _ Hrun) in H. discriminate. }
  rewrite (bind_Ret _ _ _ _ _ Hrun) in H. injection H as -> <- ->.
  split; [reflexivity|]. split; [reflexivity|].
  apply dumpHTTPResponse_Ret_inv in Hrun
    as [(l & o & B & e & o' & _ & _ & _ & -> & ->)
       |(l & o & B & o' & w2 & _ & _ & _ & Hw2 & -> & ->)].
  - do 4 (split; [reflexivity|]). eexists _, _. simpl. by rewrite <- app_assoc.
  - do 4 (split; [reflexivity|]). eexists _, _.
    unfold with_new_reader. simpl. rewrite Hw2. simpl.
    rewrite log_after_decode. simpl. by rewrite <- app_assoc.
Qed.

Lemma ModifyResponse_reports_no_error_witness :
  ∃ resp' e w',
    ModifyResponse Demo.gzip_NewReader Demo.DumpResponse_failing Demo.gzip_response
      (Demo.with_body [(Demo.ok_gz_damaged, None)]) = Ret (resp', e) w'
    ∧ e = None
    ∧ dumpHTTPResponse Demo.gzip_NewReader Demo.DumpResponse_failing
        Demo.gzip_response (Demo.with_body [(Demo.ok_gz_damaged, None)])
      = Ret resp' w'
    ∧ resp_Status resp' = resp_Status Demo.gzip_response
    ∧ resp_StatusCode resp' = resp_StatusCode Demo.gzip_response
    ∧ resp_Header resp' = resp_Header Demo.gzip_response
    ∧ resp_ContentLength resp' = resp_ContentLength Demo.gzip_response
    ∧ ∃ e1 e2, log w' = log (Demo.with_body [(Demo.ok_gz_damaged, None)]) ++ [e1; e2].
Proof.
  eexists _, _, _. split; [vm_compute; reflexivity|].
  apply (ModifyResponse_reports_no_error Demo.gzip_NewReader Demo.DumpResponse_failing
           Demo.gzip_response (Demo.with_body [(Demo.ok_gz_damaged, None)])).
  vm_compute. reflexivity.
Defined.

(** X15. The log of one exchange.  When a request with a readable body goes
    through [RoundTrip], the wrapped round tripper, which writes no log
    record itself, answers with a response whose body is readable, and that
    response goes through the response hook, the log gains four records in
    this order: request headers, request body, response headers, response
    body. *)
Theorem exchange_log_order gz dq dr t req w l B1 w_ resp w1 l2 B2 w1_ :
  (∀ r wa x wb, rt t r wa = Ret x wb → log wb = log wa) →
  req_Body req = Some l →
  io_ReadAll (Some l) w = Ret (Some B1, None) w_ →
  RoundTrip gz dq t req w = Ret (Some resp, None) w1 →
  resp_Body resp = Some l2 →
  io_ReadAll (Some l2) w1 = Ret (Some B2, None) w1_ →
  ∃ resp' w2 D1 D2,
    ModifyResponse gz dr resp w1 = Ret (resp', None) w2
    ∧ log w2 = log w ++ [request_header_entry dq req;
                         Printf fmt_request_body (ArgBytes (Some D1));
                         response_header_entry dr resp;
                         Printf fmt_response_body (ArgBytes (Some D2))].
Proof.
  intros Hquiet Hb H1 Htrip Hb2 H2.
  destruct (dumpHTTPRequest_calls gz dq req w l B1 w_ Hb H1)
    as (l' & wa & Hrun1 & Hlog1 & _).
  unfold RoundTrip in Htrip. rewrite (bind_Ret _ _ _ _ _ Hrun1) in Htrip.
  apply Hquiet in Htrip.
  destruct (dumpHTTPResponse_calls gz dr resp w1 l2 B2 w1_ Hb2 H2)
    as (l2' & w2 & Hrun2 & Hlog2 & _).
  eexists _, w2, _, _. split.
  - unfold ModifyResponse. rewrite (bind_Ret _ _ _ _ _ Hrun2). reflexivity.
  - rewrite Hlog2, Htrip, Hlog1, <- app_assoc. reflexivity.
Qed.

Lemma exchange_log_order_witness :
  ∃ resp w1 resp' w2 D1 D2,
    RoundTrip Demo.gzip_NewReader Demo.DumpRequestOut
      (mkLoggingTransport Demo.upstream) Demo.post_request
      (Demo.with_body [(Demo.ok_gz, None)]) = Ret (Some resp, None) w1
    ∧ ModifyResponse Demo.gzip_NewReader Demo.DumpResponse resp w1
      = Ret (resp', None) w2
    ∧ log w2 = log (Demo.with_body [(Demo.ok_gz, None)])
               ++ [request_header_entry Demo.DumpRequestOut Demo.post_request;
                   Printf fmt_request_body (ArgBytes (Some D1));
                   response_header_entry Demo.DumpResponse resp;
                   Printf fmt_response_body (ArgBytes (Some D2))].
Proof.
  assert (Htrip : RoundTrip Demo.gzip_NewReader Demo.DumpRequestOut
                    (mkLoggingTransport Demo.upstream) Demo.post_request
                    (Demo.with_body [(Demo.ok_gz, None)])
                  = Ret (Some (mkResponse "200 OK" 200 ∅ 2 (Some 2)), None)
                        (World {[ 0 := ExternReader [] true;
                                  1 := BytesReader Demo.ok_gz 25;
                                  2 := BytesReader Demo.ok 0 ]}
                           [request_header_entry Demo.DumpRequestOut Demo.post_request;
                            Printf fmt_request_body (ArgBytes (Some Demo.ok))]
                           [CallReadAll 0; CallClose 0; CallGzipNewReader Demo.ok_gz;
                            CallReadAll 1]))
    by (vm_compute; reflexivity).
  assert (Hquiet : ∀ r wa x wb,
             rt (mkLoggingTransport Demo.upstream) r wa = Ret x wb → log wb = log wa).
  { intros r wa x wb. simpl. unfold Demo.upstream.
    destruct (req_Body r) as [lr|]; simpl.
    - unfold mbind, M_bind, mret, M_ret, io_ReadAll, NopCloser_NewReader.
      destruct (heap wa !! lr) as [o|]; [|discriminate].
      destruct (readAll_object o) as [[b e] o']. simpl.
      intros H. injection H as _ <-. reflexivity.
    - unfold mbind, M_bind, mret, M_ret, NopCloser_NewReader. simpl.
      intros H. injection H as _ <-. reflexivity. }
  destruct (exchange_log_order Demo.gzip_NewReader Demo.DumpRequestOut
              Demo.DumpResponse (mkLoggingTransport Demo.upstream)
              Demo.post_request (Demo.with_body [(Demo.ok_gz, None)])
              0 Demo.ok_gz
              (World {[ 0 := ExternReader [] false ]} [] [CallReadAll 0])
              (mkResponse "200 OK" 200 ∅ 2 (Some 2))
              (World {[ 0 := ExternReader [] true;
                        1 := BytesReader Demo.ok_gz 25;
                        2 := BytesReader Demo.ok 0 ]}
                 [request_header_entry Demo.DumpRequestOut Demo.post_request;
                  Printf fmt_request_body (ArgBytes (Some Demo.ok))]
                 [CallReadAll 0; CallClose 0; CallGzipNewReader Demo.ok_gz;
                  CallReadAll 1])
              2 Demo.ok
              (World {[ 0 := ExternReader [] true;
                        1 := BytesReader Demo.ok_gz 25;
                        2 := BytesReader Demo.ok 2 ]}
                 [request_header_entry Demo.DumpRequestOut Demo.post_request;
                  Printf fmt_request_body (ArgBytes (Some Demo.ok))]
                 [CallReadAll 0; CallClose 0; CallGzipNewReader Demo.ok_gz;
                  CallReadAll 1; CallReadAll 2])
              Hquiet eq_refl)
    as (resp' & w2 & D1 & D2 & Hhook & Hlog).
  - vm_compute. reflexivity.
  - exact Htrip.
  - reflexivity.
  - vm_compute. reflexivity.
  - eexists _, _, resp', w2, D1, D2.
    split; [exact Htrip|]. split; [exact Hhook|exact Hlog].
Defined.
